(** * congressionalrecord/process.py: term resolution and speech flattening

    A shallow embedding of [process.py] and the properties of its
    specification.

    Modelling conventions.
    - A Python [str] is the list of its Unicode code points ([pystr]);
      comparison of strings is Python's, lexicographic on code points.
    - JSON documents are typed records: a key that the code reads with
      [d["k"]] is a field; a key read with [d.get("k", None)] is an
      [option] field.  Scalars that the code formats or passes to [int]
      are [jscalar] (a JSON string or a JSON integer).  A file is either
      one on which [load_json] fails ([file], with the reason) or one that
      parses to such a record; JSON of another shape is outside the
      model.
    - Effects are a trace of events (warnings logged, lines written to a
      file opened in a given mode) next to an exception-or-value result:
      the small monad [M].  What a file holds after a run is read off the
      trace by [file_after].
    - [tqdm] only draws a progress bar and is left out. *)

From Stdlib Require Import ZArith NArith List String Ascii Bool Lia.
From Stdlib Require Import DecimalString DecimalPos.
From stdpp Require Import base gmap.
Import ListNotations.

Local Open Scope N_scope.

(** ** Python strings *)

Abbreviation pystr := (list N).

(** A literal of the source, as code points. *)
Definition u (s : string) : pystr :=
  List.map N_of_ascii (list_ascii_of_string s).

Fixpoint str_eqb (a b : pystr) : bool :=
  match a, b with
  | [], [] => true
  | x :: a', y :: b' => (x =? y) && str_eqb a' b'
  | _, _ => false
  end.

(** [a <= b] on [str]: the first differing code point decides, a proper
    prefix is smaller. *)
Fixpoint str_le (a b : pystr) : bool :=
  match a, b with
  | [], _ => true
  | _ :: _, [] => false
  | x :: a', y :: b' =>
      if x <? y then true else if x =? y then str_le a' b' else false
  end.

(** [x in xs] for a list of strings. *)
Definition str_in (x : pystr) (xs : list pystr) : bool :=
  existsb (str_eqb x) xs.

(** ** Exceptions, events and the monad of the run *)

Inductive exn :=
| IndexError
| KeyError (key : pystr)
| ValueError
| AssertionError
| AttributeError
| NameError
| OSError
| UnicodeDecodeError
| JSONDecodeError.

Inductive Mode := ModeW | ModeA.

Section Monad.

(** [Line] is what one [outfile.write] puts into the file. *)
Context {Line : Type}.

Inductive Event :=
| Warning (msg : pystr)
| FileWrite (fpath : pystr) (mode : Mode) (line : Line).

Inductive result (A : Type) :=
| Ok (a : A)
| Raise (e : exn).

Definition M (A : Type) : Type := list Event * result A.

Definition ret {A} (a : A) : M A := ([], Ok A a).

Definition raise {A} (e : exn) : M A := ([], Raise A e).

Definition bind {A B} (m : M A) (k : A -> M B) : M B :=
  match m with
  | (evs, Ok _ a) => let (evs', r) := k a in (evs ++ evs', r)
  | (evs, Raise _ e) => (evs, Raise B e)
  end.

Definition emit (e : Event) : M unit := ([e], Ok unit tt).

(** [for x in xs: s = body(s, x)], an exception leaving the loop. *)
Fixpoint for_each {A S} (body : S -> A -> M S) (xs : list A) (s : S) : M S :=
  match xs with
  | [] => ret s
  | x :: xs' => bind (body s x) (for_each body xs')
  end.

(** The content of the file [fpath] after the events, from its content
    before ([None]: the file does not exist).  Mode ["w"] truncates or
    creates, mode ["a"] appends or creates. *)
Definition file_step (fpath : pystr) (content : option (list Line)) (e : Event)
  : option (list Line) :=
  match e with
  | Warning _ => content
  | FileWrite p mode line =>
      if str_eqb p fpath then
        match mode with
        | ModeW => Some [line]
        | ModeA => Some (default [] content ++ [line])
        end
      else content
  end.

Definition file_after (fpath : pystr) (content : option (list Line))
  (evs : list Event) : option (list Line) :=
  fold_left (file_step fpath) evs content.

(** The lines written, in the order of the writes. *)
Fixpoint written (evs : list Event) : list Line :=
  match evs with
  | [] => []
  | Warning _ :: evs' => written evs'
  | FileWrite _ _ line :: evs' => line :: written evs'
  end.

End Monad.

Arguments Event : clear implicits.
Arguments M : clear implicits.
Arguments Ok {A} a.
Arguments Raise {A} e.

#[global] Instance M_ret {Line} : MRet (M Line) := @ret Line.
#[global] Instance M_bind {Line} : MBind (M Line) := fun A B k m => bind m k.

(** [l[i]] for a Python list, negative indices counting from the end. *)
Definition getitem {Line A} (l : list A) (i : Z) : M Line A :=
  let n := Z.of_nat (length l) in
  let j := (if i <? 0 then i + n else i)%Z in
  if ((0 <=? j) && (j <? n))%Z then
    match nth_error l (Z.to_nat j) with
    | Some a => ret a
    | None => raise IndexError
    end
  else raise IndexError.

(** ** Files *)

(** Why [load_json] fails at a path: [open] raises [OSError], reading
    the text raises [UnicodeDecodeError], or [json.load] raises
    [JSONDecodeError] (the last two are subclasses of [ValueError]). *)
Inductive load_error := CannotOpen | CannotDecode | NotJSON.

Definition load_exn (why : load_error) : exn :=
  match why with
  | CannotOpen => OSError
  | CannotDecode => UnicodeDecodeError
  | NotJSON => JSONDecodeError
  end.

(** What [load_json] finds at a path: the parsed content, or the reason
    of its failure. *)
Inductive file (A : Type) :=
| Json (content : A)
| LoadFails (why : load_error).

Arguments Json {A} content.
Arguments LoadFails {A} why.

(** ** Legislators and their terms *)

Record Term := {
  t_start : pystr;
  t_end : pystr;
  t_state : pystr;
  t_party : option pystr;
  t_caucus : option pystr
}.

Record Legislator := {
  l_first_name : pystr;
  l_last_name : pystr;
  l_gender : pystr;
  l_terms : list Term
}.

(** [term["start"] <= date <= term["end"]] *)
Definition covers (date : pystr) (term : Term) : bool :=
  str_le (t_start term) date && str_le date (t_end term).

(** The [for] loop of [filter_terms] over an iterator: the first term that
    covers the date is returned from inside the loop. *)
Fixpoint scan_terms (date : pystr) (it : list Term) : option Term :=
  match it with
  | [] => None
  | term :: it' => if covers date term then Some term else scan_terms date it'
  end.

Definition no_overlap_msg (date : pystr) (last_term : Term) : pystr :=
  u "Legislator's terms do not overlap with " ++ date ++ u " "
    ++ u " using most recent term, ending " ++ t_end last_term.

Definition filter_terms {Line} (date : pystr) (terms : list Term) : M Line Term :=
  match scan_terms date (rev terms) with
  | Some term => ret term
  | None =>
      last_term ← getitem terms (-1);
      emit (Warning (no_overlap_msg date last_term));;
      ret last_term
  end.

(** ** Text cleaning *)

(** [s.startswith(prefix)] *)
Fixpoint starts_with (prefix s : pystr) : bool :=
  match prefix, s with
  | [], _ => true
  | _ :: _, [] => false
  | x :: prefix', y :: s' => (x =? y) && starts_with prefix' s'
  end.

(** [str.replace] with a non-empty [old], scanning from the left: at a
    position where [old] starts, [new] is put out and the scan resumes
    after the occurrence ([skip] counts the code points of the occurrence
    still to pass over). *)
Fixpoint replace_from (old new : pystr) (skip : nat) (s : pystr) : pystr :=
  match s with
  | [] => []
  | c :: s' =>
      match skip with
      | S k => replace_from old new k s'
      | O =>
          if starts_with old s
          then new ++ replace_from old new (length old - 1) s'
          else c :: replace_from old new 0 s'
      end
  end.

(** [s.replace(old, new)]: every occurrence is replaced (no [count] is
    given); an empty [old] matches before every code point and at the end. *)
Definition replace (s old new : pystr) : pystr :=
  match old with
  | [] => new ++ flat_map (fun c => c :: new) s
  | _ :: _ => replace_from old new 0 s
  end.

Definition mem (c : N) (chars : pystr) : bool := existsb (N.eqb c) chars.

(** [s.lstrip(chars)]: [chars] is a set of code points. *)
Fixpoint lstrip (chars s : pystr) : pystr :=
  match s with
  | [] => []
  | c :: s' => if mem c chars then lstrip chars s' else c :: s'
  end.

(** [\s] of [re] on a [str] pattern: the code points for which
    [str.isspace] holds. *)
Definition is_space (c : N) : bool :=
  ((9 <=? c) && (c <=? 13)) || ((28 <=? c) && (c <=? 32))
  || (c =? 133) || (c =? 160) || (c =? 5760)
  || ((8192 <=? c) && (c <=? 8202))
  || (c =? 8232) || (c =? 8233) || (c =? 8239) || (c =? 8287) || (c =? 12288).

(** [re.sub("\s+", repl, s)]: [in_run] tells that the code point before
    was white space, so that a maximal run is replaced once. *)
Fixpoint re_sub_spaces (repl : pystr) (in_run : bool) (s : pystr) : pystr :=
  match s with
  | [] => []
  | c :: s' =>
      if is_space c
      then (if in_run then [] else repl) ++ re_sub_spaces repl true s'
      else c :: re_sub_spaces repl false s'
  end.

(** The two cleaning steps of [process_and_speech_data] taken together:
    line 147 and then line 165. *)
Definition clean_text (speaker text : pystr) : pystr :=
  re_sub_spaces (u " ") false (lstrip (u ". ") (replace text speaker [])).

(** ** JSON scalars, [int] and formatting *)

Inductive jscalar :=
| JStr (s : pystr)
| JInt (z : Z).

(** [str(n)] for an [int]. *)
Definition str_of_int (n : Z) : pystr :=
  u (NilZero.string_of_int (Z.to_int n)).

(** ["{}".format(v)] *)
Definition py_str (v : jscalar) : pystr :=
  match v with
  | JStr s => s
  | JInt z => str_of_int z
  end.

(** [f"{n:02}"]: zero padding to width 2 (a sign counts in the width). *)
Definition format_02 (n : Z) : pystr :=
  let s := str_of_int n in
  if (length s <? 2)%nat then u "0" ++ s else s.

(** The code points of the digit zero of each run of ten decimal
    digits of Unicode 14.0 (category Nd): the digits that [int] reads. *)
Definition decimal_zeros : list N := [
  48; 1632; 1776; 1984; 2406; 2534; 2662; 2790; 2918; 3046; 3174; 3302;
  3430; 3558; 3664; 3792; 3872; 4160; 4240; 6112; 6160; 6470; 6608; 6784;
  6800; 6992; 7088; 7232; 7248; 42528; 43216; 43264; 43472; 43504; 43600;
  44016; 65296; 66720; 68912; 69734; 69872; 69942; 70096; 70384; 70736;
  70864; 71248; 71360; 71472; 71904; 72016; 72784; 73040; 73120; 92768;
  92864; 93008; 120782; 120792; 120802; 120812; 120822; 123200; 123632;
  125264; 130032
].

Definition digit_val (c : N) : option Z :=
  match List.find (fun zero => (zero <=? c) && (c <=? zero + 9)) decimal_zeros with
  | Some zero => Some (Z.of_N (c - zero))
  | None => None
  end.

(** Decimal digits, single underscores allowed between two digits. *)
Fixpoint parse_digits (acc : Z) (after_digit : bool) (s : pystr) : option Z :=
  match s with
  | [] => if after_digit then Some acc else None
  | c :: s' =>
      if c =? 95 then
        if after_digit then parse_digits acc false s' else None
      else
        match digit_val c with
        | Some d => parse_digits (10 * acc + d)%Z true s'
        | None => None
        end
  end.

(** The white space that [int] passes over at both ends: the white
    space of [str.isspace] but U+001C to U+001F, which [int] refuses. *)
Definition int_space (c : N) : bool :=
  is_space c && negb ((28 <=? c) && (c <=? 31)).

Fixpoint drop_spaces (s : pystr) : pystr :=
  match s with
  | [] => []
  | c :: s' => if int_space c then drop_spaces s' else c :: s'
  end.

(** [int(s)] for a [str]: surrounding white space, an optional sign, then
    the digits.  (The limit on the number of digits that the interpreter
    can be set to, from Python 3.11 on, is left out, for [int] as for
    [str].) *)
Definition int_of_str (s : pystr) : option Z :=
  match rev (drop_spaces (rev (drop_spaces s))) with
  | 43 :: ds => parse_digits 0 false ds
  | 45 :: ds => option_map Z.opp (parse_digits 0 false ds)
  | ds => parse_digits 0 false ds
  end.

Definition py_int {Line} (v : jscalar) : M Line Z :=
  match v with
  | JInt z => ret z
  | JStr s =>
      match int_of_str s with
      | Some z => ret z
      | None => raise ValueError
      end
  end.

(** [d[key]] for a [dict] with string keys. *)
Definition dict_get {Line V : Type} (d : gmap pystr V) (key : pystr) : M Line V :=
  match d !! key with
  | Some v => ret v
  | None => raise (KeyError key)
  end.

(** ** Constants of the module *)

Definition PROCEDURAL_TITLES : list pystr := [
  u "APPOINTMENT OF ACTING PRESIDENT PRO TEMPORE";
  u "HOUR OF MEETING ON TOMORROW";
  u "ADJOURNMENT";
  u "PLEDGE OF ALLEGIANCE";
  u "THE JOURNAL";
  u "EXECUTIVE REPORTS OF COMMITTEES";
  u "UNANIMOUS CONSENT AGREEMENT--EXECUTIVE CALENDAR";
  u "ADJOURNMENT UNTIL 9:30 A.M. TOMORROW";
  u "APPOINTMENT";
  u "AUTHORITY FOR COMMITTEES TO MEET";
  u "PROGRAM";
  u "EXECUTIVE REPORTS OF COMMITTEE";
  u "PRIVILEGES OF THE FLOOR";
  u "APPOINTMENTS";
  u "GENERAL LEAVE";
  u "ADJOURNMENT UNTIL 10 A.M. TOMORROW"
].

(** [strftime('%B')] of the first day of each month of 2020, in the C
    locale. *)
Definition month_names : list pystr := [
  u "January"; u "February"; u "March"; u "April"; u "May"; u "June";
  u "July"; u "August"; u "September"; u "October"; u "November";
  u "December"
].

Definition MONTH_MAP : gmap pystr pystr :=
  list_to_map
    (List.map (fun '(i, name) => (name, format_02 (Z.of_nat i)))
       (combine (seq 1 12) month_names)).

(** ** Speech documents and flattened records *)

Record Header := {
  h_year : jscalar;
  h_month : pystr;
  h_day : jscalar;
  h_chamber : pystr
}.

(** A content item; [s_speaker_bioguide] is [None] for a JSON [null]. *)
Record Speech := {
  s_kind : pystr;
  s_speaker : pystr;
  s_speaker_bioguide : option pystr;
  s_itemno : jscalar;
  s_text : pystr
}.

Record Document := {
  d_id : jscalar;
  d_title : pystr;
  d_header : Header;
  d_content : list Speech
}.

(** The dictionary [clean_data]. *)
Record FlattenedSpeechRecord := {
  r_id : pystr;
  r_source_file : pystr;
  r_title : pystr;
  r_date : pystr;
  r_text : pystr;
  r_chamber : pystr;
  r_speaker_id : pystr;
  r_party : option pystr;
  r_first_name : pystr;
  r_last_name : pystr;
  r_gender : pystr;
  r_state : pystr
}.

(** A line of the output file is [json.dumps(clean_data) + "\n"]; the
    serialisation is not modelled, a line is the record it was made of. *)
Abbreviation Run := (M FlattenedSpeechRecord).

(** The argument [output_fpath], a [str] or a [pathlib.Path]: only an
    empty [str] is falsy. *)
Inductive fpath_arg :=
| PathStr (s : pystr)
| PathObj (s : pystr).

Definition truthy (output_fpath : option fpath_arg) : bool :=
  match output_fpath with
  | None => false
  | Some (PathStr []) => false
  | Some _ => true
  end.

(** [party in ["Republican", "Democrat"]], for a party that may be
    [None]. *)
Definition gop_dem (party : option pystr) : bool :=
  match party with
  | Some p => str_in p [u "Republican"; u "Democrat"]
  | None => false
  end.

(** Lines 153 to 157: the party of the record, or [None] where the loop
    goes on to the next item ([continue]). *)
Definition resolve_party (restrict_to_gop_dem : bool) (term : Term)
  : option (option pystr) :=
  let party := t_party term in
  if restrict_to_gop_dem && negb (gop_dem party) then
    let party := t_caucus term in
    if negb (gop_dem party) then None else Some party
  else Some party.

(** [speaker_bioguide != "None" and speaker_bioguide]: the identifier
    when the test passes. *)
Definition attributed (bioguide : option pystr) : option pystr :=
  match bioguide with
  | Some b =>
      if str_eqb b (u "None") then None
      else match b with [] => None | _ :: _ => Some b end
  | None => None
  end.

(** The dictionary [clean_data], lines 159 to 176; [text] is the text
    after line 147. *)
Definition clean_data (path : pystr) (data : Document) (date : pystr)
  (speech : Speech) (text speaker_id : pystr) (legislator : Legislator)
  (term : Term) (party : option pystr) : FlattenedSpeechRecord := {|
  r_id := py_str (d_id data) ++ u "_" ++ py_str (s_itemno speech);
  r_source_file := path;
  r_title := d_title data;
  r_date := date;
  r_text := re_sub_spaces (u " ") false text;
  r_chamber := h_chamber (d_header data);
  r_speaker_id := speaker_id;
  r_party := party;
  r_first_name := l_first_name legislator;
  r_last_name := l_last_name legislator;
  r_gender := l_gender legislator;
  r_state := t_state term
|}.

Section Process.

(** What [load_json] finds at each path. *)
Variable fs : pystr -> file Document.

(** The module-level name [out_fpath], bound only by the script part of
    the module (to the same path that it passes as [output_fpath]). *)
Variable out_fpath : option pystr.

Variable legislator_data : gmap pystr Legislator.
Variable output_fpath : option fpath_arg.
Variable remove_procedural : bool.
Variable restrict_to_gop_dem : bool.

Definition load_json (fpath : pystr) : Run Document :=
  match fs fpath with
  | Json data => ret data
  | LoadFails why => raise (load_exn why)
  end.

(** [speeches.append(clean_data)] *)
Definition append (speeches : option (list FlattenedSpeechRecord))
  (clean_data : FlattenedSpeechRecord)
  : Run (option (list FlattenedSpeechRecord)) :=
  match speeches with
  | Some l => ret (Some (l ++ [clean_data]))
  | None => raise AttributeError
  end.

(** Lines 178 to 182. *)
Definition save (i : nat) (speeches : option (list FlattenedSpeechRecord))
  (clean_data : FlattenedSpeechRecord)
  : Run (option (list FlattenedSpeechRecord)) :=
  match output_fpath with
  | Some _ =>
      match out_fpath with
      | Some p =>
          emit (FileWrite p (if (i =? 0)%nat then ModeW else ModeA) clean_data);;
          ret speeches
      | None => raise NameError
      end
  | None => append speeches clean_data
  end.

(** The body of the loop over [data["content"]], lines 141 to 182. *)
Definition process_speech (i : nat) (path : pystr) (data : Document)
  (date : pystr) (speeches : option (list FlattenedSpeechRecord))
  (speech : Speech) : Run (option (list FlattenedSpeechRecord)) :=
  if str_eqb (s_kind speech) (u "speech") then
    match attributed (s_speaker_bioguide speech) with
    | Some speaker_id =>
        let text := lstrip (u ". ") (replace (s_text speech) (s_speaker speech) []) in
        legislator ← dict_get legislator_data speaker_id;
        term ← filter_terms date (l_terms legislator);
        match resolve_party restrict_to_gop_dem term with
        | None => ret speeches
        | Some party =>
            let clean_data :=
              clean_data path data date speech text speaker_id legislator
                term party in
            save i speeches clean_data
        end
    | None => ret speeches
    end
  else ret speeches.

(** Lines 132 to 137: the date of the document, checked for its length. *)
Definition collect_date (data : Document) : Run pystr :=
  let year := py_str (h_year (d_header data)) in
  month ← dict_get MONTH_MAP (h_month (d_header data));
  day ← py_int (h_day (d_header data));
  let date := year ++ u "-" ++ month ++ u "-" ++ format_02 day in
  if (length date =? 10)%nat then ret date else raise AssertionError.

(** The body of the loop over [enumerate(input_paths)], lines 126 to 182. *)
Definition process_file (speeches : option (list FlattenedSpeechRecord))
  (ip : nat * pystr) : Run (option (list FlattenedSpeechRecord)) :=
  let '(i, path) := ip in
  data ← load_json path;
  if remove_procedural && str_in (d_title data) PROCEDURAL_TITLES then
    ret speeches
  else
    date ← collect_date data;
    for_each (process_speech i path data date) (d_content data) speeches.

Definition enumerate {A} (l : list A) : list (nat * A) :=
  combine (seq 0 (length l)) l.

Definition process_and_speech_data (input_paths : list pystr)
  : Run (option (list FlattenedSpeechRecord)) :=
  let speeches := if truthy output_fpath then Some [] else None in
  for_each process_file (enumerate input_paths) speeches.

End Process.

(** ** The legislator index *)

(** A raw legislator record, with the nested keys that
    [process_legislator_data] reads. *)
Record RawId := { id_bioguide : pystr }.
Record RawName := { name_first : pystr; name_last : pystr }.
Record RawBio := { bio_gender : pystr }.

Record RawLegislator := {
  leg_id : RawId;
  leg_name : RawName;
  leg_bio : RawBio;
  leg_terms : list Term
}.

(** The dictionary stored for one legislator, lines 91 to 97. *)
Definition legislator_entry (leg : RawLegislator) : Legislator := {|
  l_first_name := name_first (leg_name leg);
  l_last_name := name_last (leg_name leg);
  l_gender := bio_gender (leg_bio leg);
  l_terms := leg_terms leg
|}.

Definition process_legislator_data (raw_data : list RawLegislator)
  : gmap pystr Legislator :=
  fold_left
    (fun legislator_data leg =>
       let speaker_id := id_bioguide (leg_id leg) in
       <[ speaker_id := legislator_entry leg ]> legislator_data)
    raw_data ∅.

(** ** The script *)

(** [a < b] on [str]. *)
Fixpoint str_lt (a b : pystr) : bool :=
  match a, b with
  | _, [] => false
  | [], _ :: _ => true
  | x :: a', y :: b' =>
      if x <? y then true else if x =? y then str_lt a' b' else false
  end.

(** The loops of [min] and [max] over an iterator, from its first item. *)
Fixpoint min_loop (m : pystr) (it : list pystr) : pystr :=
  match it with
  | [] => m
  | x :: it' => min_loop (if str_lt x m then x else m) it'
  end.

Fixpoint max_loop (m : pystr) (it : list pystr) : pystr :=
  match it with
  | [] => m
  | x :: it' => max_loop (if str_lt m x then x else m) it'
  end.

(** [min(it)] and [max(it)]: an empty iterator raises [ValueError]. *)
Definition py_min {Line} (it : list pystr) : M Line pystr :=
  match it with
  | [] => raise ValueError
  | x :: it' => ret (min_loop x it')
  end.

Definition py_max {Line} (it : list pystr) : M Line pystr :=
  match it with
  | [] => raise ValueError
  | x :: it' => ret (max_loop x it')
  end.

(** [a or b] for an optional command line string [a]: [b] is evaluated
    only when [a] is [None] or empty. *)
Definition py_or {Line} (a : option pystr) (b : M Line pystr) : M Line pystr :=
  match a with
  | Some (c :: a') => ret (c :: a')
  | _ => b
  end.

(** A path found by the glob: [sp_path] is [str(p)], [sp_day_dir] is
    [p.parent.parent.name]; [pathlib] itself is not modelled. *)
Record SpeechPath := {
  sp_path : pystr;
  sp_day_dir : pystr
}.

(** The arguments after [parse_args]. *)
Record Args := {
  speech_data_dir : pystr;
  legislator_data_fpaths : list pystr;
  output_dir : pystr;
  arg_start : option pystr;
  arg_end : option pystr;
  remove_procedural_speeches : bool;
  arg_restrict_to_gop_dem : bool
}.

(** Lines 247 to 250: the paths whose date lies between the bounds, with
    the bounds used. *)
Definition filter_dates {Line} (args : Args) (speech_paths : list SpeechPath)
  : M Line (list SpeechPath * pystr * pystr) :=
  let dates :=
    List.map (fun p => (p, replace (sp_day_dir p) (u "CREC-") [])) speech_paths in
  start ← py_or (arg_start args) (py_min (List.map snd dates));
  end_ ← py_or (arg_end args) (py_max (List.map snd dates));
  ret (List.map fst
         (List.filter (fun pd => str_le start (snd pd) && str_le (snd pd) end_)
            dates),
       start, end_).

Section Script.

(** What [load_json] finds at the path of a legislator file and of a
    speech file. *)
Variable fs_legislators : pystr -> file (list RawLegislator).
Variable fs : pystr -> file Document.

(** What the glob of line 244 yields under a directory. *)
Variable glob : pystr -> list SpeechPath.

(** [str(Path(directory, name))] *)
Variable path_join : pystr -> pystr -> pystr.

(** Lines 238 to 240. *)
Definition load_legislators (fpaths : list pystr) : Run (list RawLegislator) :=
  for_each
    (fun raw_legislator_data path =>
       match fs_legislators path with
       | Json l => ret (raw_legislator_data ++ l)
       | LoadFails why => raise (load_exn why)
       end)
    fpaths [].

(** Lines 237 to 260, after the arguments are parsed; the creation of
    the output directory is left out. *)
Definition script (args : Args) : Run (option (list FlattenedSpeechRecord)) :=
  raw_legislator_data ← load_legislators (legislator_data_fpaths args);
  let legislator_data := process_legislator_data raw_legislator_data in
  let speech_paths := glob (speech_data_dir args) in
  '(speech_paths, start, end_) ← filter_dates args speech_paths;
  let out_fpath :=
    path_join (output_dir args)
      (u "speeches-" ++ start ++ u "-to-" ++ end_ ++ u ".jsonl") in
  process_and_speech_data fs (Some out_fpath) legislator_data
    (Some (PathObj out_fpath)) (remove_procedural_speeches args)
    (arg_restrict_to_gop_dem args) (List.map sp_path speech_paths).

End Script.

(** ** Predicates of the specification *)

(** No term of the list covers the date. *)
Definition uncovered (date : pystr) (l : list Term) : Prop :=
  Forall (fun term => covers date term = false) l.

(** The party is "Republican" or "Democrat". *)
Definition is_gop_dem (party : option pystr) : Prop :=
  party = Some (u "Republican") \/ party = Some (u "Democrat").

(** [old in s] *)
Fixpoint contains (old s : pystr) : bool :=
  starts_with old s
  || match s with
     | [] => false
     | _ :: s' => contains old s'
     end.

(** [out] is [s] without the occurrences of [old] met when reading [s]
    from the left, an occurrence being passed over as a whole. *)
Inductive removed_all (old : pystr) : pystr -> pystr -> Prop :=
| removed_nil : removed_all old [] []
| removed_occurrence rest out :
    removed_all old rest out -> removed_all old (old ++ rest) out
| removed_keep c s out :
    (forall rest, c :: s <> old ++ rest) ->
    removed_all old s out -> removed_all old (c :: s) (c :: out).

(** [out] is [s] without its longest prefix made of code points of
    [chars]. *)
Definition lstripped (chars s out : pystr) : Prop :=
  exists pre,
    s = pre ++ out
    /\ Forall (fun c => mem c chars = true) pre
    /\ match out with
       | [] => True
       | c :: _ => mem c chars = false
       end.

Definition space_free_head (s : pystr) : Prop :=
  match s with
  | [] => True
  | c :: _ => is_space c = false
  end.

(** [out] is [s] with each maximal run of white space replaced by one
    space (code point 32). *)
Inductive collapsed : pystr -> pystr -> Prop :=
| collapsed_nil : collapsed [] []
| collapsed_char c s out :
    is_space c = false -> collapsed s out -> collapsed (c :: s) (c :: out)
| collapsed_run ws s out :
    ws <> [] -> Forall (fun c => is_space c = true) ws ->
    space_free_head s -> collapsed s out ->
    collapsed (ws ++ s) (32 :: out).

(** The only white space of [s] is the plain space, and no two white
    space code points are next to each other. *)
Definition single_spaced (s : pystr) : Prop :=
  (forall c, In c s -> is_space c = true -> c = 32)
  /\ (forall pre c1 c2 post,
         s = pre ++ c1 :: c2 :: post -> is_space c1 = true ->
         is_space c2 = false).

(** Each white space code point is the last one, or has a code point
    that is not white space after it. *)
Fixpoint no_double_space (s : pystr) : Prop :=
  match s with
  | [] => True
  | c :: s' => (is_space c = true -> space_free_head s') /\ no_double_space s'
  end.

(** Text normalisation in the words of the specification: only the first
    occurrence of the speaker's name is removed ([text.replace(speaker,
    "", 1)]). *)
Fixpoint spec_remove_first (old s : pystr) : pystr :=
  match s with
  | [] => []
  | c :: s' =>
      if starts_with old s then skipn (length old) s
      else c :: spec_remove_first old s'
  end.

Definition spec_clean_text (speaker text : pystr) : pystr :=
  re_sub_spaces (u " ") false (lstrip (u ". ") (spec_remove_first speaker text)).

(** The events of a computation satisfy [Q] and its value, if it returns
    one, satisfies [I]. *)
Definition respects {Line S} (Q : Event Line -> Prop) (I : S -> Prop)
  (m : M Line S) : Prop :=
  Forall Q (fst m) /\ (forall s, snd m = Ok s -> I s).

(** What a run hands over: the lines it wrote, then the records it
    returned. *)
Definition returned {Line} (m : M Line (option (list Line))) : list Line :=
  match snd m with
  | Ok (Some l) => l
  | _ => []
  end.

Definition emitted {Line} (m : M Line (option (list Line))) : list Line :=
  written (fst m) ++ returned m.

(** The lines of the write events satisfy [P]. *)
Definition writes {Line} (P : Line -> Prop) (e : Event Line) : Prop :=
  match e with
  | Warning _ => True
  | FileWrite _ _ line => P line
  end.

(** The records gathered in [speeches] satisfy [P]. *)
Definition gathered {R} (P : R -> Prop) (speeches : option (list R)) : Prop :=
  match speeches with
  | Some l => Forall P l
  | None => True
  end.

Section Provenance.

Variable fs : pystr -> file Document.
Variable legislator_data : gmap pystr Legislator.
Variable restrict_to_gop_dem : bool.

(** The record was made from a content item that passed the tests of
    lines 141 to 157. *)
Definition from_speech (r : FlattenedSpeechRecord) : Prop :=
  exists path data date speech speaker_id legislator term party,
    fs path = Json data
    /\ In speech (d_content data)
    /\ s_kind speech = u "speech"
    /\ attributed (s_speaker_bioguide speech) = Some speaker_id
    /\ legislator_data !! speaker_id = Some legislator
    /\ In term (l_terms legislator)
    /\ snd (filter_terms (Line := FlattenedSpeechRecord) date (l_terms legislator))
       = Ok term
    /\ resolve_party restrict_to_gop_dem term = Some party
    /\ r = clean_data path data date speech
             (lstrip (u ". ") (replace (s_text speech) (s_speaker speech) []))
             speaker_id legislator term party.

End Provenance.

(** A computation that raises, raises an exception of [E]. *)
Definition fails_with {Line A} (E : exn -> Prop) (m : M Line A) : Prop :=
  forall e, snd m = Raise e -> E e.

(** The computation ends with an exception. *)
Definition raises {Line A} (m : M Line A) : Prop :=
  exists e, snd m = Raise e.

Section RunPredicates.

Variable fs : pystr -> file Document.
Variable out_fpath : option pystr.
Variable legislator_data : gmap pystr Legislator.
Variable output_fpath : option fpath_arg.
Variable remove_procedural : bool.
Variable input_paths : list pystr.

(** The document at a path is read and not skipped for its title. *)
Definition processed (path : pystr) (data : Document) : Prop :=
  In path input_paths /\ fs path = Json data
  /\ remove_procedural && str_in (d_title data) PROCEDURAL_TITLES = false.

(** What lies behind each exception that a run can end with. *)
Definition run_failure (e : exn) : Prop :=
  match e with
  | OSError => exists path, In path input_paths /\ fs path = LoadFails CannotOpen
  | UnicodeDecodeError =>
      exists path, In path input_paths /\ fs path = LoadFails CannotDecode
  | JSONDecodeError =>
      exists path, In path input_paths /\ fs path = LoadFails NotJSON
  | KeyError key =>
      (exists path data,
          processed path data /\ h_month (d_header data) = key
          /\ MONTH_MAP !! key = None)
      \/ (exists path data speech,
             processed path data /\ In speech (d_content data)
             /\ s_kind speech = u "speech"
             /\ attributed (s_speaker_bioguide speech) = Some key
             /\ legislator_data !! key = None)
  | ValueError =>
      exists path data day,
        processed path data /\ h_day (d_header data) = JStr day
        /\ int_of_str day = None
  | AssertionError =>
      exists path data month day,
        processed path data
        /\ MONTH_MAP !! h_month (d_header data) = Some month
        /\ py_int (Line := FlattenedSpeechRecord) (h_day (d_header data))
           = ([], Ok day)
        /\ length (py_str (h_year (d_header data)) ++ u "-" ++ month
                   ++ u "-" ++ format_02 day) <> 10%nat
  | IndexError =>
      exists path data speech speaker_id legislator,
        processed path data /\ In speech (d_content data)
        /\ attributed (s_speaker_bioguide speech) = Some speaker_id
        /\ legislator_data !! speaker_id = Some legislator
        /\ l_terms legislator = []
  | AttributeError => output_fpath = None
  | NameError => output_fpath <> None /\ out_fpath = None
  end.

(** The record was made for an item of the document at index [i] of the
    input paths, with the date of that document. *)
Definition from_document (i : nat) (r : FlattenedSpeechRecord) : Prop :=
  exists path data date speech,
    nth_error input_paths i = Some path
    /\ fs path = Json data
    /\ remove_procedural && str_in (d_title data) PROCEDURAL_TITLES = false
    /\ snd (collect_date data) = Ok date
    /\ In speech (d_content data)
    /\ r_source_file r = path
    /\ r_title r = d_title data
    /\ r_chamber r = h_chamber (d_header data)
    /\ r_date r = date
    /\ r_id r = py_str (d_id data) ++ u "_" ++ py_str (s_itemno speech).

(** The writes go to the file named by the global [out_fpath], for a
    record of some document, in the mode that the index of the document
    gives. *)
Definition sink_event (e : Event FlattenedSpeechRecord) : Prop :=
  match e with
  | Warning _ => True
  | FileWrite p mode r =>
      out_fpath = Some p /\ output_fpath <> None
      /\ exists i,
           from_document i r
           /\ mode = (if (i =? 0)%nat then ModeW else ModeA)
  end.

End RunPredicates.

(** The event, if it is a write, is a write to [fpath] in mode [mode]. *)
Definition write_in_mode {Line} (fpath : pystr) (mode : Mode) (e : Event Line)
  : Prop :=
  match e with
  | Warning _ => True
  | FileWrite q m _ => q = fpath /\ m = mode
  end.

(** ** Data of the examples *)

Definition mk_term (start end_ party : string) (caucus : option string) : Term := {|
  t_start := u start;
  t_end := u end_;
  t_state := u "VT";
  t_party := Some (u party);
  t_caucus := option_map u caucus
|}.

(** Two terms that share the day 2015-01-03. *)
Definition term_2013 : Term := mk_term "2013-01-03" "2015-01-03" "Democrat" None.
Definition term_2015 : Term := mk_term "2015-01-03" "2017-01-03" "Democrat" None.

(** Two terms that overlap for two years. *)
Definition term_long : Term := mk_term "2013-01-03" "2017-01-03" "Republican" None.
Definition term_late : Term := mk_term "2015-01-03" "2019-01-03" "Republican" None.

(** The legislator of the specification's scenario, and a second one who
    sits as an independent. *)
Definition smith : Legislator := {|
  l_first_name := u "John";
  l_last_name := u "Smith";
  l_gender := u "M";
  l_terms := [ {| t_start := u "2015-01-01"; t_end := u "2016-12-31";
                  t_state := u "TX"; t_party := Some (u "Republican");
                  t_caucus := None |} ]
|}.

Definition independent_term (caucus : string) : Term :=
  mk_term "2015-01-01" "2016-12-31" "Independent" (Some caucus).

Definition ex_legislators : gmap pystr Legislator :=
  {[ u "S000001" := smith ]}.

Definition mk_speech (itemno : Z) (text : string) : Speech := {|
  s_kind := u "speech";
  s_speaker := u "Mr. SMITH";
  s_speaker_bioguide := Some (u "S000001");
  s_itemno := JInt itemno;
  s_text := u text
|}.

Definition mk_document (title year : string) (content : list Speech) : Document := {|
  d_id := JStr (u "D1");
  d_title := u title;
  d_header := {| h_year := JStr (u year); h_month := u "March";
                 h_day := JStr (u "3"); h_chamber := u "House" |};
  d_content := content
|}.

(** Two speeches in one document; the second names the speaker twice. *)
Definition doc_floor : Document :=
  mk_document "FLOOR STATEMENT" "2015"
    [ mk_speech 1 "Mr. SMITH. Thank you, Madam Speaker.";
      mk_speech 2 "Mr. SMITH. I yield to Mr. SMITH of Texas." ].

(** A procedural title over a header whose year has five digits. *)
Definition doc_adjournment : Document :=
  mk_document "ADJOURNMENT" "20155"
    [ mk_speech 1 "Mr. SMITH. I move that the House do now adjourn." ].

(** The same header under a title that is not procedural. *)
Definition doc_bad_year : Document :=
  mk_document "FLOOR STATEMENT" "20155"
    [ mk_speech 1 "Mr. SMITH. Thank you, Madam Speaker." ].

Definition ex_fs (path : pystr) : file Document :=
  if str_eqb path (u "floor.json") then Json doc_floor
  else if str_eqb path (u "adjournment.json") then Json doc_adjournment
  else if str_eqb path (u "bad_year.json") then Json doc_bad_year
  else LoadFails CannotOpen.

Definition ex_out : pystr := u "speeches.jsonl".

(** The records of the two speeches of [doc_floor]. *)
Definition ex_record (itemno : Z) (text : string) : FlattenedSpeechRecord := {|
  r_id := u "D1_" ++ str_of_int itemno;
  r_source_file := u "floor.json";
  r_title := u "FLOOR STATEMENT";
  r_date := u "2015-03-03";
  r_text := u text;
  r_chamber := u "House";
  r_speaker_id := u "S000001";
  r_party := Some (u "Republican");
  r_first_name := u "John";
  r_last_name := u "Smith";
  r_gender := u "M";
  r_state := u "TX"
|}.

Definition record_1 : FlattenedSpeechRecord :=
  ex_record 1 "Thank you, Madam Speaker.".
Definition record_2 : FlattenedSpeechRecord :=
  ex_record 2 "I yield to of Texas.".

(** Two raw records with the identifier of [smith]: the one a file of
    current legislators would hold, and an older one with another term. *)
Definition raw_smith : RawLegislator := {|
  leg_id := {| id_bioguide := u "S000001" |};
  leg_name := {| name_first := u "John"; name_last := u "Smith" |};
  leg_bio := {| bio_gender := u "M" |};
  leg_terms := l_terms smith
|}.

Definition raw_smith_old : RawLegislator := {|
  leg_id := {| id_bioguide := u "S000001" |};
  leg_name := {| name_first := u "John"; name_last := u "Smith" |};
  leg_bio := {| bio_gender := u "M" |};
  leg_terms := [term_2013]
|}.

(** Two paths as the glob yields them, and the arguments of a script
    run over the year 2015 and of one without bounds. *)
Definition path_2015 : SpeechPath := {|
  sp_path := u "data/2015/CREC-2015-03-03/json/a.json";
  sp_day_dir := u "CREC-2015-03-03"
|}.

Definition path_2016 : SpeechPath := {|
  sp_path := u "data/2016/CREC-2016-07-01/json/b.json";
  sp_day_dir := u "CREC-2016-07-01"
|}.

Definition mk_args (start end_ : option string) : Args := {|
  speech_data_dir := u "data";
  legislator_data_fpaths := [u "legislators-current.json"];
  output_dir := u "output";
  arg_start := option_map u start;
  arg_end := option_map u end_;
  remove_procedural_speeches := false;
  arg_restrict_to_gop_dem := false
|}.

(** A raw record without terms. *)
Definition raw_no_terms : RawLegislator := {|
  leg_id := {| id_bioguide := u "S000001" |};
  leg_name := {| name_first := u "John"; name_last := u "Smith" |};
  leg_bio := {| bio_gender := u "M" |};
  leg_terms := []
|}.

(** A header whose day is the string "-5". *)
Definition doc_negative_day : Document := {|
  d_id := JStr (u "D1");
  d_title := u "FLOOR STATEMENT";
  d_header := {| h_year := JInt 2015; h_month := u "March";
                 h_day := JStr (u "-5"); h_chamber := u "House" |};
  d_content := []
|}.

(** The document with another value under [header.day]. *)
Definition with_day (data : Document) (day : jscalar) : Document := {|
  d_id := d_id data;
  d_title := d_title data;
  d_header := {| h_year := h_year (d_header data);
                 h_month := h_month (d_header data);
                 h_day := day;
                 h_chamber := h_chamber (d_header data) |};
  d_content := d_content data
|}.

(** A term that ends before it starts. *)
Definition term_inverted : Term := mk_term "2017-01-03" "2015-01-03" "Democrat" None.

(** The one term of [smith]. *)
Definition smith_term : Term := {|
  t_start := u "2015-01-01";
  t_end := u "2016-12-31";
  t_state := u "TX";
  t_party := Some (u "Republican");
  t_caucus := None
|}.

(** * Properties *)

(** ** Strings and the monad *)

Lemma str_eqb_eq (a b : pystr) : str_eqb a b = true <-> a = b.
Proof.
  revert b; induction a as [|x a IH]; intros [|y b]; simpl; split;
    try congruence; try reflexivity.
  - intros [Hxy Hab]%andb_true_iff.
    apply N.eqb_eq in Hxy. apply IH in Hab. congruence.
  - intros [= -> ->]. rewrite N.eqb_refl. simpl. now apply IH.
Qed.

Lemma str_eqb_refl (a : pystr) : str_eqb a a = true.
Proof. now apply str_eqb_eq. Qed.

Ltac msimpl :=
  unfold mbind, mret, M_bind, M_ret, bind, ret, raise, emit in *; simpl in *.

Section MonadFacts.

Context {Line : Type}.

Lemma bind_ret_l {A B} (a : A) (k : A -> M Line B) : (ret a ≫= k) = k a.
Proof. msimpl. now destruct (k a). Qed.

Lemma getitem_last {A} (pre : list A) (x : A) :
  getitem (Line := Line) (pre ++ [x]) (-1) = ret x.
Proof.
  unfold getitem. rewrite length_app. simpl length.
  replace (-1 <? 0)%Z with true by reflexivity.
  replace ((0 <=? -1 + Z.of_nat (length pre + 1)) &&
           (-1 + Z.of_nat (length pre + 1) <? Z.of_nat (length pre + 1)))%Z
    with true by (symmetry; apply andb_true_iff; split;
                  [apply Z.leb_le | apply Z.ltb_lt]; lia).
  replace (Z.to_nat (-1 + Z.of_nat (length pre + 1))) with (length pre + 0)%nat
    by lia.
  now rewrite nth_error_app2, Nat.add_comm, Nat.add_sub by lia.
Qed.

Lemma getitem_nil {A} (i : Z) :
  getitem (Line := Line) (@nil A) i = raise IndexError.
Proof.
  unfold getitem. cbv zeta.
  destruct (_ && _)%bool; [|reflexivity].
  now destruct (Z.to_nat _).
Qed.

End MonadFacts.

(** ** Term resolution *)

Lemma scan_terms_none (date : pystr) (it : list Term) :
  scan_terms date it = None <-> uncovered date it.
Proof.
  unfold uncovered. induction it as [|term it IH]; simpl.
  - split; [constructor | reflexivity].
  - destruct (covers date term) eqn:Hc; split.
    + discriminate.
    + intros H. inversion H; subst. congruence.
    + intros H. constructor; [exact Hc | now apply IH].
    + intros H. inversion H; subst. now apply IH.
Qed.

Lemma scan_terms_app (date : pystr) (l1 l2 : list Term) :
  uncovered date l1 -> scan_terms date (l1 ++ l2) = scan_terms date l2.
Proof.
  induction 1 as [|term l1 Hc _ IH]; simpl; [reflexivity|].
  now rewrite Hc.
Qed.

Lemma scan_terms_some (date : pystr) (it : list Term) (term : Term) :
  scan_terms date it = Some term ->
  exists l1 l2, it = l1 ++ term :: l2 /\ covers date term = true
                /\ uncovered date l1.
Proof.
  induction it as [|t0 it IH]; simpl; [discriminate|].
  destruct (covers date t0) eqn:Hc.
  - intros [= ->]. exists [], it. repeat split; [exact Hc | constructor].
  - intros H. destruct (IH H) as (l1 & l2 & -> & Hcov & Hun).
    exists (t0 :: l1), l2. repeat split; [exact Hcov|].
    now constructor.
Qed.

Lemma uncovered_rev (date : pystr) (l : list Term) :
  uncovered date (rev l) <-> uncovered date l.
Proof.
  unfold uncovered. rewrite !List.Forall_forall.
  split; intros H x Hx; apply H; [now apply in_rev in Hx | now apply in_rev].
Qed.

(** The scan from the end stops at a covering term that has no covering
    term stored after it. *)
Lemma scan_terms_rev_hit (date : pystr) (pre post : list Term) (term : Term) :
  covers date term = true -> uncovered date post ->
  scan_terms date (rev (pre ++ term :: post)) = Some term.
Proof.
  intros Hc Hpost.
  rewrite rev_app_distr. simpl. rewrite <- app_assoc.
  rewrite scan_terms_app by now apply uncovered_rev.
  simpl. now rewrite Hc.
Qed.

Lemma filter_terms_hit {Line} (date : pystr) (pre post : list Term) (term : Term) :
  covers date term = true -> uncovered date post ->
  filter_terms (Line := Line) date (pre ++ term :: post) = ret term.
Proof.
  intros Hc Hpost. unfold filter_terms.
  now rewrite scan_terms_rev_hit.
Qed.

Lemma filter_terms_miss {Line} (date : pystr) (pre : list Term) (last_term : Term) :
  uncovered date (pre ++ [last_term]) ->
  filter_terms (Line := Line) date (pre ++ [last_term])
  = ([Warning (no_overlap_msg date last_term)], Ok last_term).
Proof.
  intros Hun. unfold filter_terms.
  apply uncovered_rev, scan_terms_none in Hun. rewrite Hun.
  rewrite getitem_last. reflexivity.
Qed.

(** What [filter_terms] does on a non-empty list, in both cases. *)
Lemma filter_terms_cases {Line} (date : pystr) (terms : list Term) :
  terms <> [] ->
  (exists pre term post,
      terms = pre ++ term :: post /\ covers date term = true
      /\ uncovered date post
      /\ filter_terms (Line := Line) date terms = ([], Ok term))
  \/ (exists pre last_term,
      terms = pre ++ [last_term] /\ uncovered date terms
      /\ filter_terms (Line := Line) date terms
         = ([Warning (no_overlap_msg date last_term)], Ok last_term)).
Proof.
  intros Hne.
  destruct (scan_terms date (rev terms)) as [term|] eqn:Hscan.
  - left. destruct (scan_terms_some _ _ _ Hscan) as (l1 & l2 & Hrev & Hc & Hun).
    exists (rev l2), term, (rev l1).
    assert (Hterms : terms = rev l2 ++ term :: rev l1).
    { rewrite <- (rev_involutive terms), Hrev, rev_app_distr. simpl.
      now rewrite <- app_assoc. }
    repeat split; [exact Hterms | exact Hc | now apply uncovered_rev |].
    unfold filter_terms. now rewrite Hscan.
  - right. destruct (exists_last Hne) as (pre & last_term & ->).
    exists pre, last_term.
    apply scan_terms_none in Hscan.
    apply (proj1 (uncovered_rev _ _)) in Hscan.
    repeat split; [exact Hscan|]. now apply filter_terms_miss.
Qed.

(** C1. On a non-empty list of terms, [filter_terms] scans the terms from
    the last stored one to the first and returns the first one met whose
    interval [start, end] (both ends included) contains the date, logging
    nothing; when no term contains the date it returns the term stored
    last, whatever the date, and logs one warning.  It never raises. *)
Theorem filter_terms_reverse_scan_or_last {Line} (date : pystr) (terms : list Term) :
  terms <> [] ->
  (exists pre term post,
      terms = pre ++ term :: post /\ covers date term = true
      /\ uncovered date post
      /\ filter_terms (Line := Line) date terms = ([], Ok term))
  \/ (uncovered date terms
      /\ exists pre last_term,
           terms = pre ++ [last_term]
           /\ filter_terms (Line := Line) date terms
              = ([Warning (no_overlap_msg date last_term)], Ok last_term)).
Proof.
  intros Hne.
  destruct (filter_terms_cases (Line := Line) date terms Hne)
    as [(pre & term & post & H)|(pre & last_term & Ht & Hun & Hf)].
  - left. now exists pre, term, post.
  - right. split; [exact Hun|]. now exists pre, last_term.
Qed.

Lemma filter_terms_reverse_scan_or_last_witness :
  (exists pre term post,
      [term_2013; term_2015] = pre ++ term :: post
      /\ covers (u "2014-06-01") term = true
      /\ uncovered (u "2014-06-01") post
      /\ filter_terms (Line := FlattenedSpeechRecord) (u "2014-06-01")
           [term_2013; term_2015] = ([], Ok term))
  \/ (uncovered (u "2014-06-01") [term_2013; term_2015]
      /\ exists pre last_term,
           [term_2013; term_2015] = pre ++ [last_term]
           /\ filter_terms (Line := FlattenedSpeechRecord) (u "2014-06-01")
                [term_2013; term_2015]
              = ([Warning (no_overlap_msg (u "2014-06-01") last_term)],
                 Ok last_term)).
Proof.
  apply (filter_terms_reverse_scan_or_last (u "2014-06-01") [term_2013; term_2015]).
  discriminate.
Defined.



(** C3, as the specification states it, fails.  On the day shared by
    [term_2013] and [term_2015] the term stored later is returned, not the
    one stored first; and a date inside [term_long] is resolved to
    [term_late], stored after it, which contains the date too. *)
Lemma boundary_date_resolves_to_later_term :
  (t_end term_2013 = u "2015-01-03" /\ t_start term_2015 = u "2015-01-03"
   /\ filter_terms (Line := FlattenedSpeechRecord) (u "2015-01-03")
        [term_2013; term_2015] = ([], Ok term_2015)
   /\ term_2015 <> term_2013)
  /\ (covers (u "2016-06-01") term_long = true
      /\ filter_terms (Line := FlattenedSpeechRecord) (u "2016-06-01")
           [term_long; term_late] = ([], Ok term_late)
      /\ term_late <> term_long).
Proof.
  repeat split; try reflexivity; discriminate.
Qed.

(** C3, amended.  A term that contains the date is returned when no term
    stored after it contains the date; so on a day shared by two terms,
    the later stored of the two is returned when none after it contains
    the day. *)
Theorem filter_terms_latest_covering_term {Line} (date : pystr) :
  (forall pre term post,
      covers date term = true -> uncovered date post ->
      filter_terms (Line := Line) date (pre ++ term :: post) = ([], Ok term))
  /\ (forall pre a mid b post,
         t_end a = date -> t_start b = date ->
         covers date a = true -> covers date b = true ->
         uncovered date post ->
         filter_terms (Line := Line) date (pre ++ a :: mid ++ b :: post)
         = ([], Ok b)).
Proof.
  split.
  - intros pre term post Hc Hun. now apply filter_terms_hit.
  - intros pre a mid b post _ _ _ Hb Hun.
    replace (pre ++ a :: mid ++ b :: post) with ((pre ++ a :: mid) ++ b :: post)
      by now rewrite <- app_assoc.
    now apply filter_terms_hit.
Qed.

Lemma filter_terms_latest_covering_term_witness :
  filter_terms (Line := FlattenedSpeechRecord) (u "2015-01-03")
    ([] ++ term_2013 :: [] ++ term_2015 :: []) = ([], Ok term_2015).
Proof.
  apply (proj2 (filter_terms_latest_covering_term (u "2015-01-03"))
           [] term_2013 [] term_2015 []).
  - reflexivity.
  - reflexivity.
  - reflexivity.
  - reflexivity.
  - constructor.
Defined.

(** ** Text cleaning *)

Lemma starts_with_spec (prefix s : pystr) :
  starts_with prefix s = true <-> exists rest, s = prefix ++ rest.
Proof.
  revert s; induction prefix as [|x prefix IH]; intros s; simpl.
  - split; [now exists s | reflexivity].
  - destruct s as [|y s]; split.
    + discriminate.
    + intros [rest [=]].
    + intros [Hxy Hs]%andb_true_iff. apply N.eqb_eq in Hxy. subst y.
      apply IH in Hs as [rest ->]. now exists rest.
    + intros [rest [= -> ->]]. rewrite N.eqb_refl. simpl.
      apply IH. now exists rest.
Qed.

Lemma replace_from_skip (old new : pystr) (k : nat) (s : pystr) :
  replace_from old new k s = replace_from old new 0 (skipn k s).
Proof.
  revert k; induction s as [|c s IH]; intros [|k]; try reflexivity.
  simpl skipn. rewrite <- IH. reflexivity.
Qed.

Lemma replace_from_occurrence (o : N) (old' rest : pystr) :
  replace_from (o :: old') [] 0 ((o :: old') ++ rest)
  = replace_from (o :: old') [] 0 rest.
Proof.
  cbn [app replace_from].
  replace (starts_with (o :: old') (o :: old' ++ rest)) with true
    by (symmetry; apply starts_with_spec; now exists rest).
  cbn [app length]. rewrite Nat.sub_succ, Nat.sub_0_r.
  rewrite replace_from_skip. f_equal.
  induction old' as [|x old' IH]; [reflexivity | exact IH].
Qed.

Lemma replace_from_removed (old : pystr) (n : nat) :
  old <> [] ->
  forall s, (length s <= n)%nat -> removed_all old s (replace_from old [] 0 s).
Proof.
  intros Hold. induction n as [|n IH]; intros [|c s] Hlen;
    try constructor; simpl in Hlen; [lia|].
  destruct (starts_with old (c :: s)) eqn:Hsw.
  - apply starts_with_spec in Hsw as [rest Hrest].
    destruct old as [|o old']; [congruence|].
    rewrite Hrest, replace_from_occurrence.
    apply removed_occurrence, IH.
    apply (f_equal (@length N)) in Hrest.
    rewrite length_app in Hrest. simpl in Hrest. lia.
  - cbn [replace_from]. rewrite Hsw.
    apply removed_keep; [|apply IH; lia].
    intros rest Hrest.
    assert (starts_with old (c :: s) = true)
      by (apply starts_with_spec; now exists rest).
    congruence.
Qed.

Lemma replace_from_absent (old new s : pystr) :
  contains old s = false -> replace_from old new 0 s = s.
Proof.
  induction s as [|c s IH]; [reflexivity|].
  cbn [contains replace_from].
  intros [Hsw Hc]%orb_false_iff. rewrite Hsw. f_equal. now apply IH.
Qed.

Lemma replace_absent (old s : pystr) :
  old = [] \/ contains old s = false -> replace s old [] = s.
Proof.
  intros [->|Hc].
  - simpl. induction s as [|c s IH]; simpl; [reflexivity | now f_equal].
  - destruct old as [|o old']; [now destruct s|].
    now apply replace_from_absent.
Qed.

(** [replace] removes the occurrences as [removed_all] tells. *)
Lemma replace_removed (old s : pystr) :
  (old = [] /\ replace s old [] = s)
  \/ (old <> [] /\ removed_all old s (replace s old [])).
Proof.
  destruct old as [|o old'].
  - left. split; [reflexivity|]. apply replace_absent. now left.
  - right. split; [discriminate|].
    now apply (replace_from_removed _ (length s)).
Qed.

Lemma lstrip_lstripped (chars s : pystr) : lstripped chars s (lstrip chars s).
Proof.
  induction s as [|c s (pre & Hs & Hpre & Hout)]; simpl.
  - exists []. repeat split. constructor.
  - destruct (mem c chars) eqn:Hc.
    + exists (c :: pre). repeat split; [now rewrite Hs at 1 | | exact Hout].
      now constructor.
    + exists []. repeat split; [constructor | exact Hc].
Qed.

Lemma lstrip_fixed (chars s : pystr) :
  match s with [] => True | c :: _ => mem c chars = false end ->
  lstrip chars s = s.
Proof. destruct s as [|c s]; simpl; [reflexivity | now intros ->]. Qed.

Lemma re_sub_spaces_plain (b : bool) (s : pystr) (c : N) :
  In c (re_sub_spaces (u " ") b s) -> is_space c = true -> c = 32.
Proof.
  change (u " ") with [32].
  revert b; induction s as [|c0 s IH]; intros b; simpl; [tauto|].
  destruct (is_space c0) eqn:Hc0.
  - intros Hin%in_app_or Hc. destruct Hin as [Hin|Hin].
    + destruct b; simpl in Hin; [tauto|]. now destruct Hin.
    + now apply (IH true).
  - intros [<-|Hin] Hc; [congruence|]. now apply (IH false).
Qed.

Lemma re_sub_spaces_head (s : pystr) :
  space_free_head (re_sub_spaces (u " ") true s).
Proof.
  induction s as [|c s IH]; simpl; [exact I|].
  destruct (is_space c) eqn:Hc; [exact IH | exact Hc].
Qed.

Lemma re_sub_spaces_no_double (b : bool) (s : pystr) :
  no_double_space (re_sub_spaces (u " ") b s).
Proof.
  revert b; induction s as [|c s IH]; intros b; simpl; [exact I|].
  destruct (is_space c) eqn:Hc.
  - destruct b; simpl; [apply IH|].
    split; [intros _; apply re_sub_spaces_head | apply IH].
  - simpl. split; [congruence | apply IH].
Qed.

Lemma no_double_space_adjacent (s pre : pystr) (c1 c2 : N) (post : pystr) :
  no_double_space s -> s = pre ++ c1 :: c2 :: post ->
  is_space c1 = true -> is_space c2 = false.
Proof.
  revert s; induction pre as [|x pre IH]; intros s Hs ->; simpl in Hs.
  - intros Hc1. now apply (proj1 Hs).
  - apply (IH _ (proj2 Hs) eq_refl).
Qed.

Lemma re_sub_spaces_single_spaced (s : pystr) :
  single_spaced (re_sub_spaces (u " ") false s).
Proof.
  split.
  - intros c. apply re_sub_spaces_plain.
  - intros pre c1 c2 post. apply no_double_space_adjacent.
    apply re_sub_spaces_no_double.
Qed.

Lemma re_sub_spaces_in_run (ws s : pystr) :
  Forall (fun c => is_space c = true) ws -> space_free_head s ->
  re_sub_spaces (u " ") true (ws ++ s) = re_sub_spaces (u " ") false s.
Proof.
  intros Hws Hs. induction Hws as [|c ws Hc _ IH]; simpl.
  - destruct s as [|c s]; simpl in *; [reflexivity | now rewrite Hs].
  - now rewrite Hc.
Qed.

Lemma space_span (s : pystr) :
  exists ws s',
    s = ws ++ s' /\ Forall (fun c => is_space c = true) ws
    /\ space_free_head s'.
Proof.
  induction s as [|c s (ws & s' & -> & Hws & Hs')].
  - exists [], []. repeat split. constructor.
  - destruct (is_space c) eqn:Hc.
    + exists (c :: ws), s'. repeat split; [now constructor | exact Hs'].
    + exists [], (c :: ws ++ s'). repeat split; [constructor | exact Hc].
Qed.

Lemma re_sub_spaces_collapsed (n : nat) (s : pystr) :
  (length s <= n)%nat -> collapsed s (re_sub_spaces (u " ") false s).
Proof.
  revert s; induction n as [|n IH]; intros [|c s] Hlen;
    try constructor; simpl in Hlen; [lia|].
  cbn [re_sub_spaces]. destruct (is_space c) eqn:Hc.
  - destruct (space_span s) as (ws & s' & -> & Hws & Hs').
    rewrite re_sub_spaces_in_run by assumption.
    change (c :: ws ++ s') with ((c :: ws) ++ s').
    apply collapsed_run; [discriminate | now constructor | exact Hs' |].
    apply IH. rewrite length_app in Hlen. lia.
  - apply collapsed_char; [exact Hc | apply IH; lia].
Qed.

(** White space collapsing leaves a collapsed text as it is. *)
Lemma re_sub_spaces_fixed (s : pystr) :
  (forall c, In c s -> is_space c = true -> c = 32) -> no_double_space s ->
  re_sub_spaces (u " ") false s = s.
Proof.
  change (u " ") with [32].
  induction s as [|c s IH]; [reflexivity|].
  intros Hplain [Hhead Hnd]. cbn [re_sub_spaces].
  assert (IHs : re_sub_spaces [32] false s = s)
    by (apply IH; [intros x Hx; apply Hplain; now right | exact Hnd]).
  destruct (is_space c) eqn:Hc.
  - rewrite (Hplain c (or_introl eq_refl) Hc). simpl. f_equal.
    specialize (Hhead eq_refl).
    destruct s as [|c' s]; [reflexivity|]. simpl in Hhead.
    cbn [re_sub_spaces] in *. rewrite Hhead in *. exact IHs.
  - now f_equal.
Qed.

Lemma re_sub_spaces_idempotent (s : pystr) :
  re_sub_spaces (u " ") false (re_sub_spaces (u " ") false s)
  = re_sub_spaces (u " ") false s.
Proof.
  apply re_sub_spaces_fixed.
  - intros c. apply re_sub_spaces_plain.
  - apply re_sub_spaces_no_double.
Qed.

(** ** Invariants of the run *)

Section Respects.

Context {Line : Type}.
Variable Q : Event Line -> Prop.

Lemma respects_ret {A} (I : A -> Prop) (a : A) :
  I a -> respects Q I (ret a).
Proof. intros Ha. split; [constructor | now intros s [= <-]]. Qed.

Lemma respects_raise {A} (I : A -> Prop) (e : exn) :
  respects Q I (raise e).
Proof. split; [constructor | discriminate]. Qed.

Lemma respects_bind {A B} (IA : A -> Prop) (IB : B -> Prop)
  (m : M Line A) (k : A -> M Line B) :
  respects Q IA m -> (forall a, IA a -> respects Q IB (k a)) ->
  respects Q IB (m ≫= k).
Proof.
  destruct m as [evs [a|e]]; intros [Hevs Hres] Hk; msimpl.
  - specialize (Hk a (Hres a eq_refl)).
    destruct (k a) as [evs' r]; destruct Hk as [Hevs' Hr]. simpl in *.
    split; [now apply Forall_app | exact Hr].
  - split; [exact Hevs | discriminate].
Qed.

Lemma respects_for_each {A S} (I : S -> Prop) (body : S -> A -> M Line S)
  (xs : list A) :
  (forall s x, In x xs -> I s -> respects Q I (body s x)) ->
  forall s, I s -> respects Q I (for_each body xs s).
Proof.
  induction xs as [|x xs IH]; intros Hbody s Hs; cbn [for_each].
  - now apply respects_ret.
  - apply (respects_bind I I (body s x) (for_each body xs)).
    + apply Hbody; [now left | exact Hs].
    + intros s' Hs'. apply IH; [|exact Hs'].
      intros s0 x0 Hx0. apply Hbody. now right.
Qed.

End Respects.

Lemma filter_terms_respects {Line} (P : Line -> Prop) (date : pystr)
  (terms : list Term) :
  respects (writes P)
    (fun term => In term terms /\ snd (filter_terms (Line := Line) date terms) = Ok term)
    (filter_terms date terms).
Proof.
  destruct terms as [|t0 terms'].
  - unfold filter_terms. cbn [rev scan_terms]. rewrite getitem_nil.
    apply respects_raise.
  - destruct (filter_terms_cases (Line := Line) date (t0 :: terms'))
      as [(pre & term & post & Ht & _ & _ & Hf)|(pre & last_term & Ht & _ & Hf)];
      [discriminate | |]; rewrite Hf, Ht.
    + split; [constructor|]. intros s [= <-]. split; [|reflexivity].
      apply in_or_app. right. now left.
    + split; [repeat constructor|]. intros s [= <-]. split; [|reflexivity].
      apply in_or_app. right. now left.
Qed.

Lemma written_forall {Line} (P : Line -> Prop) (evs : list (Event Line)) :
  Forall (writes P) evs -> Forall P (written evs).
Proof.
  induction 1 as [|[msg|p mode line] evs He _ IH]; simpl;
    [constructor | exact IH | now constructor].
Qed.

Section ProcessFacts.

Variable fs : pystr -> file Document.
Variable out_fpath : option pystr.
Variable legislator_data : gmap pystr Legislator.
Variable output_fpath : option fpath_arg.
Variable remove_procedural : bool.
Variable restrict_to_gop_dem : bool.

Local Abbreviation from_speech' := (from_speech fs legislator_data restrict_to_gop_dem).
Local Abbreviation Inv := (respects (writes from_speech') (gathered from_speech')).

Lemma save_respects (i : nat) (speeches : option (list FlattenedSpeechRecord))
  (r : FlattenedSpeechRecord) :
  gathered from_speech' speeches -> from_speech' r ->
  Inv (save out_fpath output_fpath i speeches r).
Proof.
  intros Hsp Hr. unfold save, append.
  destruct output_fpath as [?|].
  - destruct out_fpath as [p|]; [|apply respects_raise].
    split; [repeat constructor; exact Hr | now intros s [= <-]].
  - destruct speeches as [l|]; [|apply respects_raise].
    apply respects_ret. simpl in *. apply Forall_app. split; [exact Hsp|].
    now repeat constructor.
Qed.

Lemma process_speech_respects (i : nat) (path : pystr) (data : Document)
  (date : pystr) (speeches : option (list FlattenedSpeechRecord))
  (speech : Speech) :
  fs path = Json data -> In speech (d_content data) ->
  gathered from_speech' speeches ->
  Inv (process_speech out_fpath legislator_data output_fpath
         restrict_to_gop_dem i path data date speeches speech).
Proof.
  intros Hfs Hin Hsp. unfold process_speech.
  destruct (str_eqb (s_kind speech) (u "speech")) eqn:Hkind;
    [|now apply respects_ret].
  apply str_eqb_eq in Hkind.
  destruct (attributed (s_speaker_bioguide speech)) as [speaker_id|] eqn:Hatt;
    [|now apply respects_ret].
  unfold dict_get.
  destruct (legislator_data !! speaker_id) as [legislator|] eqn:Hleg;
    [|apply respects_raise].
  rewrite bind_ret_l.
  eapply respects_bind; [apply filter_terms_respects|].
  intros term [Hterm Hres]. cbv beta.
  destruct (resolve_party restrict_to_gop_dem term) as [party|] eqn:Hparty;
    [|now apply respects_ret].
  apply save_respects; [exact Hsp|].
  now exists path, data, date, speech, speaker_id, legislator, term, party.
Qed.

Lemma process_file_respects (speeches : option (list FlattenedSpeechRecord))
  (ip : nat * pystr) :
  gathered from_speech' speeches ->
  Inv (process_file fs out_fpath legislator_data output_fpath
         remove_procedural restrict_to_gop_dem speeches ip).
Proof.
  intros Hsp. destruct ip as [i path]. unfold process_file, load_json.
  destruct (fs path) as [data|] eqn:Hfs; [|apply respects_raise].
  rewrite bind_ret_l.
  destruct (remove_procedural && _); [now apply respects_ret|].
  eapply respects_bind with (IA := fun _ => True).
  - unfold collect_date, dict_get, py_int.
    destruct (MONTH_MAP !! _); [|apply respects_raise]. rewrite bind_ret_l.
    destruct (h_day _) as [day|day];
      [destruct (int_of_str day); [|apply respects_raise]|];
      rewrite bind_ret_l;
      (destruct (_ =? _)%nat; [now apply respects_ret | apply respects_raise]).
  - intros date _. apply respects_for_each; [|exact Hsp].
    intros s speech Hin Hs. now apply process_speech_respects.
Qed.

(** Every record that a run writes or returns was made from a content
    item that passed the tests of the loop. *)
Lemma run_emitted_from_speech (input_paths : list pystr) :
  Forall from_speech'
    (emitted (process_and_speech_data fs out_fpath legislator_data
                output_fpath remove_procedural restrict_to_gop_dem
                input_paths)).
Proof.
  assert (H : Inv (process_and_speech_data fs out_fpath legislator_data
                     output_fpath remove_procedural restrict_to_gop_dem
                     input_paths)).
  { unfold process_and_speech_data. apply respects_for_each.
    - intros s ip _ Hs. now apply process_file_respects.
    - destruct (truthy output_fpath); simpl; [constructor | exact I]. }
  destruct H as [Hevs Hres]. unfold emitted, returned.
  apply Forall_app. split; [now apply written_forall|].
  destruct (snd _) as [[l|]|e]; [|constructor..].
  exact (Hres (Some l) eq_refl).
Qed.

End ProcessFacts.

(** ** The run on the examples *)

(** The scenario of the specification, with a second speech: both
    records are written, so the statements on written records below do
    not speak of an empty list. *)
Example run_floor_written :
  written (fst (process_and_speech_data ex_fs (Some ex_out) ex_legislators
                  (Some (PathObj ex_out)) false false [u "floor.json"]))
  = [record_1; record_2].
Proof. vm_compute. reflexivity. Qed.

(** C5, on the code.  One document with two speeches, a destination
    given: each record is written to a file opened in mode ["w"], since
    the mode is chosen on the index [i] of the document and not on the
    records written so far; after the run the file holds the second
    record only, not both. *)
Theorem first_file_truncates_at_each_record :
  let run := process_and_speech_data ex_fs (Some ex_out) ex_legislators
               (Some (PathObj ex_out)) false false [u "floor.json"] in
  fst run = [FileWrite ex_out ModeW record_1; FileWrite ex_out ModeW record_2]
  /\ file_after ex_out None (fst run) = Some [record_2]
  /\ file_after ex_out None (fst run) <> Some (written (fst run)).
Proof.
  vm_compute. repeat split. discriminate.
Qed.

(** Without a destination [speeches] stays [None] for the whole run. *)
Lemma no_destination_no_list (fs : pystr -> file Document)
  (out_fpath : option pystr) (legislator_data : gmap pystr Legislator)
  (remove_procedural restrict_to_gop_dem : bool) (input_paths : list pystr) :
  respects (fun _ => True) (fun speeches => speeches = None)
    (process_and_speech_data fs out_fpath legislator_data None
       remove_procedural restrict_to_gop_dem input_paths).
Proof.
  assert (Hall : forall evs : list (Event FlattenedSpeechRecord),
             Forall (fun _ => True) evs)
    by (intros evs; now apply List.Forall_forall).
  unfold process_and_speech_data. cbn [truthy].
  apply respects_for_each; [|reflexivity].
  intros s [i path] _ ->. unfold process_file.
  eapply respects_bind with (IA := fun _ => True); [split; [apply Hall | easy]|].
  intros data _. destruct (remove_procedural && _); [now apply respects_ret|].
  eapply respects_bind with (IA := fun _ => True); [split; [apply Hall | easy]|].
  intros date _. apply respects_for_each; [|reflexivity].
  intros s speech _ ->. unfold process_speech.
  destruct (str_eqb _ _); [|now apply respects_ret].
  destruct (attributed _) as [speaker_id|]; [|now apply respects_ret].
  eapply respects_bind with (IA := fun _ => True); [split; [apply Hall | easy]|].
  intros legislator _.
  eapply respects_bind with (IA := fun _ => True); [split; [apply Hall | easy]|].
  intros term _.
  destruct (resolve_party _ _); [apply respects_raise | now apply respects_ret].
Qed.

(** C6, on the code.  Without a destination [speeches] is [None] and the
    first record to append raises [AttributeError]; no run without a
    destination returns a list.  With a destination the run returns the
    empty list, not [None]. *)
Theorem no_destination_raises_attribute_error :
  process_and_speech_data ex_fs (Some ex_out) ex_legislators None
    false false [u "floor.json"] = ([], Raise AttributeError)
  /\ (forall fs out_fpath legislator_data remove_procedural
         restrict_to_gop_dem input_paths l,
         snd (process_and_speech_data fs out_fpath legislator_data None
                remove_procedural restrict_to_gop_dem input_paths)
         <> Ok (Some l))
  /\ snd (process_and_speech_data ex_fs (Some ex_out) ex_legislators
            (Some (PathObj ex_out)) false false [u "floor.json"])
     = Ok (Some []).
Proof.
  split; [vm_compute; reflexivity | split; [|vm_compute; reflexivity]].
  intros fs out_fpath legislator_data remove_procedural restrict_to_gop_dem
    input_paths l Hres.
  destruct (no_destination_no_list fs out_fpath legislator_data
              remove_procedural restrict_to_gop_dem input_paths) as [_ Hnone].
  specialize (Hnone _ Hres). discriminate.
Qed.

(** ** Properties of the emitted records *)

(** C10. In every record that a run writes or returns, the text has no
    white space but plain spaces, and no two of them side by side. *)
Theorem emitted_text_single_spaced (fs : pystr -> file Document)
  (out_fpath : option pystr) (legislator_data : gmap pystr Legislator)
  (output_fpath : option fpath_arg) (remove_procedural restrict_to_gop_dem : bool)
  (input_paths : list pystr) :
  Forall (fun r => single_spaced (r_text r))
    (emitted (process_and_speech_data fs out_fpath legislator_data
                output_fpath remove_procedural restrict_to_gop_dem
                input_paths)).
Proof.
  eapply List.Forall_impl; [|apply run_emitted_from_speech].
  intros r (path & data & date & speech & speaker_id & legislator & term
            & party & _ & _ & _ & _ & _ & _ & _ & _ & ->).
  apply re_sub_spaces_single_spaced.
Qed.

(** C2, as the specification states it, fails.  The second speech of
    [doc_floor] names the speaker twice; in the record written for it both
    occurrences are gone, where removing the first one only would have
    left ["I yield to Mr. SMITH of Texas."]. *)
Lemma later_occurrence_of_speaker_removed :
  s_speaker (mk_speech 2 "Mr. SMITH. I yield to Mr. SMITH of Texas.")
  = u "Mr. SMITH"
  /\ List.map r_text
       (written (fst (process_and_speech_data ex_fs (Some ex_out)
                        ex_legislators (Some (PathObj ex_out)) false false
                        [u "floor.json"])))
     = [u "Thank you, Madam Speaker."; u "I yield to of Texas."]
  /\ spec_clean_text (u "Mr. SMITH")
       (u "Mr. SMITH. I yield to Mr. SMITH of Texas.")
     = u "I yield to Mr. SMITH of Texas."
  /\ clean_text (u "Mr. SMITH")
       (u "Mr. SMITH. I yield to Mr. SMITH of Texas.")
     <> spec_clean_text (u "Mr. SMITH")
          (u "Mr. SMITH. I yield to Mr. SMITH of Texas.").
Proof. vm_compute. repeat split. discriminate. Qed.

(** C2, amended.  The text of every record that a run writes or returns
    comes from the raw text of a content item in three steps: the
    occurrences of the speaker's name are removed, all of them as met
    from the left (an empty name removes nothing); the leading periods
    and spaces are stripped; each run of white space becomes one space. *)
Theorem emitted_text_cleaned (fs : pystr -> file Document)
  (out_fpath : option pystr) (legislator_data : gmap pystr Legislator)
  (output_fpath : option fpath_arg) (remove_procedural restrict_to_gop_dem : bool)
  (input_paths : list pystr) :
  Forall
    (fun r =>
       exists path data speech t1 t2,
         fs path = Json data /\ In speech (d_content data)
         /\ ((s_speaker speech = [] /\ t1 = s_text speech)
             \/ (s_speaker speech <> []
                 /\ removed_all (s_speaker speech) (s_text speech) t1))
         /\ lstripped (u ". ") t1 t2
         /\ collapsed t2 (r_text r)
         /\ r_text r = clean_text (s_speaker speech) (s_text speech))
    (emitted (process_and_speech_data fs out_fpath legislator_data
                output_fpath remove_procedural restrict_to_gop_dem
                input_paths)).
Proof.
  eapply List.Forall_impl; [|apply run_emitted_from_speech].
  intros r (path & data & date & speech & speaker_id & legislator & term
            & party & Hfs & Hin & _ & _ & _ & _ & _ & _ & ->).
  exists path, data, speech, (replace (s_text speech) (s_speaker speech) []),
    (lstrip (u ". ") (replace (s_text speech) (s_speaker speech) [])).
  repeat split; try assumption.
  - destruct (replace_removed (s_speaker speech) (s_text speech))
      as [[He Hr]|[Hne Hr]]; [left | right]; now split.
  - apply lstrip_lstripped.
  - cbn [r_text clean_data]. eapply re_sub_spaces_collapsed. apply Nat.le_refl.
Qed.

(** C7, as the specification states it, fails.  A name broken over two
    lines (code point 10 between its words) appears only once the white
    space is collapsed and goes at the second pass; a period after a
    leading line break is stripped only at the second pass. *)
Lemma clean_text_twice_differs :
  (let text := u "Mr." ++ [10] ++ u "SMITH. I rise today." in
   clean_text (u "Mr. SMITH") text = u "Mr. SMITH. I rise today."
   /\ clean_text (u "Mr. SMITH") (clean_text (u "Mr. SMITH") text)
      = u "I rise today."
   /\ clean_text (u "Mr. SMITH") (clean_text (u "Mr. SMITH") text)
      <> clean_text (u "Mr. SMITH") text)
  /\ (let text := [10] ++ u ". I rise today." in
      clean_text (u "Mr. SMITH") text = u " . I rise today."
      /\ clean_text (u "Mr. SMITH") (clean_text (u "Mr. SMITH") text)
         = u "I rise today."
      /\ clean_text (u "Mr. SMITH") (clean_text (u "Mr. SMITH") text)
         <> clean_text (u "Mr. SMITH") text).
Proof. vm_compute. repeat split; discriminate. Qed.

(** C7, amended.  Collapsing the white space of a cleaned text changes
    nothing; and cleaning a cleaned text again gives the same text when
    the speaker's name does not occur in it (or is empty) and it does not
    begin with a period or a space. *)
Theorem clean_text_stable (speaker text : pystr) :
  let out := clean_text speaker text in
  re_sub_spaces (u " ") false out = out
  /\ (speaker = [] \/ contains speaker out = false ->
      starts_with (u ".") out = false -> starts_with (u " ") out = false ->
      clean_text speaker out = out).
Proof.
  cbv zeta. split; [apply re_sub_spaces_idempotent|].
  intros Hname Hdot Hsp.
  set (out := clean_text speaker text) in *.
  unfold clean_text at 1.
  rewrite replace_absent by exact Hname.
  rewrite lstrip_fixed; [apply re_sub_spaces_idempotent|].
  fold out. destruct out as [|c out']; [exact I|].
  change (u ".") with [46] in Hdot. change (u " ") with [32] in Hsp.
  change (u ". ") with [46; 32].
  cbn [starts_with] in Hdot, Hsp. rewrite andb_true_r in Hdot, Hsp.
  unfold mem. cbn [existsb].
  now rewrite (N.eqb_sym c 46), (N.eqb_sym c 32), Hdot, Hsp.
Qed.

Lemma clean_text_stable_witness :
  clean_text (u "Mr. SMITH")
    (clean_text (u "Mr. SMITH") (u "Mr. SMITH. Thank you, Madam Speaker."))
  = clean_text (u "Mr. SMITH") (u "Mr. SMITH. Thank you, Madam Speaker.").
Proof.
  apply (proj2 (clean_text_stable (u "Mr. SMITH")
                  (u "Mr. SMITH. Thank you, Madam Speaker."))).
  - right. vm_compute. reflexivity.
  - vm_compute. reflexivity.
  - vm_compute. reflexivity.
Defined.

(** ** Party resolution *)

Lemma gop_dem_spec (party : option pystr) :
  gop_dem party = true <-> is_gop_dem party.
Proof.
  unfold gop_dem, is_gop_dem, str_in. destruct party as [p|].
  - cbn [existsb]. rewrite orb_false_r, orb_true_iff, !str_eqb_eq.
    split; (intros [H|H]; [left | right]; congruence).
  - split; [discriminate | intros [H|H]; discriminate].
Qed.

Lemma gop_dem_false (party : option pystr) :
  gop_dem party = false <-> ~ is_gop_dem party.
Proof.
  rewrite <- gop_dem_spec. destruct (gop_dem party); split;
    congruence || (intros H; now elim H).
Qed.

Section Dropped.

Variable out_fpath : option pystr.
Variable legislator_data : gmap pystr Legislator.
Variable output_fpath : option fpath_arg.
Variable restrict_to_gop_dem : bool.

(** An item whose party is not resolved leaves the loop body with
    [speeches] as it was and nothing written: the loop goes on. *)
Lemma process_speech_dropped (i : nat) (path : pystr) (data : Document)
  (date : pystr) (speeches : option (list FlattenedSpeechRecord))
  (speech : Speech) (speaker_id : pystr) (legislator : Legislator)
  (evs : list (Event FlattenedSpeechRecord)) (term : Term) :
  s_kind speech = u "speech" ->
  attributed (s_speaker_bioguide speech) = Some speaker_id ->
  legislator_data !! speaker_id = Some legislator ->
  filter_terms date (l_terms legislator) = (evs, Ok term) ->
  resolve_party restrict_to_gop_dem term = None ->
  process_speech out_fpath legislator_data output_fpath restrict_to_gop_dem
    i path data date speeches speech = (evs, Ok speeches).
Proof.
  intros Hkind Hatt Hleg Hft Hparty. unfold process_speech.
  rewrite Hkind, str_eqb_refl, Hatt. unfold dict_get. rewrite Hleg.
  rewrite bind_ret_l. unfold mbind, M_bind, bind. rewrite Hft, Hparty.
  cbn. now rewrite app_nil_r.
Qed.

End Dropped.

(** A speech item of a legislator whose party is resolved is emitted:
    written to the destination, or appended to [speeches]. *)
Lemma process_speech_emitted (out_fpath : option pystr)
  (legislator_data : gmap pystr Legislator) (output_fpath : option fpath_arg)
  (restrict_to_gop_dem : bool) (i : nat) (path : pystr) (data : Document)
  (date : pystr) (speeches : option (list FlattenedSpeechRecord))
  (speech : Speech) (speaker_id : pystr) (legislator : Legislator)
  (evs : list (Event FlattenedSpeechRecord)) (term : Term)
  (party : option pystr) :
  s_kind speech = u "speech" ->
  attributed (s_speaker_bioguide speech) = Some speaker_id ->
  legislator_data !! speaker_id = Some legislator ->
  filter_terms date (l_terms legislator) = (evs, Ok term) ->
  resolve_party restrict_to_gop_dem term = Some party ->
  let r :=
    clean_data path data date speech
      (lstrip (u ". ") (replace (s_text speech) (s_speaker speech) []))
      speaker_id legislator term party in
  (forall dest d,
      out_fpath = Some dest -> output_fpath = Some d ->
      process_speech out_fpath legislator_data output_fpath
        restrict_to_gop_dem i path data date speeches speech
      = (evs ++ [FileWrite dest (if (i =? 0)%nat then ModeW else ModeA) r],
         Ok speeches))
  /\ (forall l,
         output_fpath = None -> speeches = Some l ->
         process_speech out_fpath legislator_data output_fpath
           restrict_to_gop_dem i path data date speeches speech
         = (evs, Ok (Some (l ++ [r])))).
Proof.
  intros Hkind Hatt Hleg Hft Hparty r.
  assert (Hstep : process_speech out_fpath legislator_data output_fpath
                    restrict_to_gop_dem i path data date speeches speech
                  = let (evs', res) := save out_fpath output_fpath i speeches r in
                    (evs ++ evs', res)).
  { unfold process_speech.
    rewrite Hkind, str_eqb_refl, Hatt. unfold dict_get. rewrite Hleg.
    rewrite bind_ret_l. unfold mbind, M_bind, bind. now rewrite Hft, Hparty. }
  rewrite Hstep. unfold save, append. split.
  - intros dest d -> ->. reflexivity.
  - intros l -> ->. cbn. now rewrite app_nil_r.
Qed.

(** C4. With [restrict_to_gop_dem] the party of a record is the party of
    the term if that is "Republican" or "Democrat", else the caucus of the
    term if that is "Republican" or "Democrat", else the item is dropped:
    nothing is written for it and the loop over the items goes on.
    Without [restrict_to_gop_dem] the party of the term is taken as it is.
    An item whose party is resolved is emitted with that party: written
    to the destination, or appended to the list.  The party of every
    record written or returned is resolved in this way from the term that
    [filter_terms] gives for the date of the record among the terms of
    its speaker. *)
Theorem party_resolution :
  (forall term,
      (is_gop_dem (t_party term) ->
       resolve_party true term = Some (t_party term))
      /\ (~ is_gop_dem (t_party term) -> is_gop_dem (t_caucus term) ->
          resolve_party true term = Some (t_caucus term))
      /\ (~ is_gop_dem (t_party term) -> ~ is_gop_dem (t_caucus term) ->
          resolve_party true term = None)
      /\ resolve_party false term = Some (t_party term))
  /\ (forall out_fpath legislator_data output_fpath restrict_to_gop_dem
        i path data date speeches speech speaker_id legislator evs term,
         s_kind speech = u "speech" ->
         attributed (s_speaker_bioguide speech) = Some speaker_id ->
         legislator_data !! speaker_id = Some legislator ->
         filter_terms date (l_terms legislator) = (evs, Ok term) ->
         resolve_party restrict_to_gop_dem term = None ->
         process_speech out_fpath legislator_data output_fpath
           restrict_to_gop_dem i path data date speeches speech
         = (evs, Ok speeches)
         /\ written evs = [])
  /\ (forall out_fpath legislator_data output_fpath restrict_to_gop_dem
        i path data date speeches speech speaker_id legislator evs term party,
         s_kind speech = u "speech" ->
         attributed (s_speaker_bioguide speech) = Some speaker_id ->
         legislator_data !! speaker_id = Some legislator ->
         filter_terms date (l_terms legislator) = (evs, Ok term) ->
         resolve_party restrict_to_gop_dem term = Some party ->
         exists r,
           r_party r = party /\ r_speaker_id r = speaker_id /\ r_date r = date
           /\ (forall dest d,
                  out_fpath = Some dest -> output_fpath = Some d ->
                  process_speech out_fpath legislator_data output_fpath
                    restrict_to_gop_dem i path data date speeches speech
                  = (evs ++ [FileWrite dest
                               (if (i =? 0)%nat then ModeW else ModeA) r],
                     Ok speeches))
           /\ (forall l,
                  output_fpath = None -> speeches = Some l ->
                  process_speech out_fpath legislator_data output_fpath
                    restrict_to_gop_dem i path data date speeches speech
                  = (evs, Ok (Some (l ++ [r])))))
  /\ (forall fs out_fpath legislator_data output_fpath remove_procedural
        restrict_to_gop_dem input_paths,
         Forall
           (fun r =>
              exists legislator term,
                legislator_data !! r_speaker_id r = Some legislator
                /\ In term (l_terms legislator)
                /\ snd (filter_terms (Line := FlattenedSpeechRecord)
                          (r_date r) (l_terms legislator)) = Ok term
                /\ resolve_party restrict_to_gop_dem term = Some (r_party r))
           (emitted (process_and_speech_data fs out_fpath legislator_data
                       output_fpath remove_procedural restrict_to_gop_dem
                       input_paths))).
Proof.
  split; [|split; [|split]].
  - intros term. unfold resolve_party. repeat split.
    + intros H%gop_dem_spec. now rewrite H.
    + intros Hp%gop_dem_false Hc%gop_dem_spec. now rewrite Hp, Hc.
    + intros Hp%gop_dem_false Hc%gop_dem_false. now rewrite Hp, Hc.
  - intros out_fpath legislator_data output_fpath restrict_to_gop_dem
      i path data date speeches speech speaker_id legislator evs term
      Hkind Hatt Hleg Hft Hparty.
    split; [now apply (process_speech_dropped _ _ _ _ _ _ _ _ _ _ speaker_id
                         legislator evs term)|].
    pose proof (filter_terms_respects (Line := FlattenedSpeechRecord)
                  (fun _ => False) date (l_terms legislator)) as [Hw _].
    rewrite Hft in Hw. simpl in Hw. apply written_forall in Hw.
    destruct (written evs) as [|r l]; [reflexivity|]. now inversion Hw.
  - intros out_fpath legislator_data output_fpath restrict_to_gop_dem
      i path data date speeches speech speaker_id legislator evs term party
      Hkind Hatt Hleg Hft Hparty.
    eexists. split; [|split; [|split]];
      [| | |exact (process_speech_emitted out_fpath legislator_data
                     output_fpath restrict_to_gop_dem i path data date
                     speeches speech speaker_id legislator evs term party
                     Hkind Hatt Hleg Hft Hparty)]; reflexivity.
  - intros fs out_fpath legislator_data output_fpath remove_procedural
      restrict_to_gop_dem input_paths.
    eapply List.Forall_impl; [|apply run_emitted_from_speech].
    intros r (path & data & date & speech & speaker_id & legislator & term
              & party & _ & _ & _ & _ & Hleg & Hterm & Hft & Hparty & ->).
    now exists legislator, term.
Qed.

Lemma party_resolution_witness :
  (resolve_party true (independent_term "Democrat") = Some (Some (u "Democrat"))
   /\ resolve_party true (independent_term "Independent") = None)
  /\ exists r,
       r_party r = Some (u "Republican")
       /\ process_speech (Some ex_out) ex_legislators (Some (PathObj ex_out))
            true 0 (u "floor.json") doc_floor (u "2015-03-03") (Some [])
            (mk_speech 1 "Mr. SMITH. Thank you, Madam Speaker.")
          = ([] ++ [FileWrite ex_out ModeW r], Ok (Some [])).
Proof.
  split; [split|].
  - apply (proj1 (proj2 (proj1 party_resolution (independent_term "Democrat")))).
    + intros [H|H]; discriminate.
    + right. reflexivity.
  - apply (proj1 (proj2 (proj2 (proj1 party_resolution
                                   (independent_term "Independent"))))).
    + intros [H|H]; discriminate.
    + intros [H|H]; discriminate.
  - destruct (proj1 (proj2 (proj2 party_resolution))
                (Some ex_out) ex_legislators (Some (PathObj ex_out)) true
                0%nat (u "floor.json") doc_floor (u "2015-03-03") (Some [])
                (mk_speech 1 "Mr. SMITH. Thank you, Madam Speaker.")
                (u "S000001") smith [] smith_term (Some (u "Republican"))
                eq_refl eq_refl eq_refl eq_refl eq_refl)
      as (r & Hparty & _ & _ & Hwrite & _).
    exists r. split; [exact Hparty|].
    exact (Hwrite ex_out (PathObj ex_out) eq_refl eq_refl).
Defined.

(** ** Order of the checks on a document *)

(** C8, as the specification states it, fails.  [doc_adjournment] has a
    procedural title and a header that gives a date of eleven code
    points: with [remove_procedural] the run skips the document and
    returns, while the same header under another title stops the run. *)
Lemma procedural_document_skipped_before_date_check :
  str_in (d_title doc_adjournment) PROCEDURAL_TITLES = true
  /\ collect_date doc_adjournment = ([], Raise AssertionError)
  /\ process_and_speech_data ex_fs (Some ex_out) ex_legislators
       (Some (PathObj ex_out)) true false [u "adjournment.json"]
     = ([], Ok (Some []))
  /\ process_and_speech_data ex_fs (Some ex_out) ex_legislators
       (Some (PathObj ex_out)) true false [u "bad_year.json"]
     = ([], Raise AssertionError).
Proof. vm_compute. repeat split. Qed.

(** C8, amended.  The title is tested first: with [remove_procedural], a
    document whose title is in the table is skipped and its date is
    neither made nor checked.  For every other document the date is made
    and checked before any item is processed, and a date whose length is
    not 10 stops the run with [AssertionError]. *)
Theorem title_check_precedes_date_check (fs : pystr -> file Document)
  (out_fpath : option pystr) (legislator_data : gmap pystr Legislator)
  (output_fpath : option fpath_arg) (restrict_to_gop_dem : bool)
  (speeches : option (list FlattenedSpeechRecord)) (i : nat) (path : pystr)
  (data : Document) :
  fs path = Json data ->
  (str_in (d_title data) PROCEDURAL_TITLES = true ->
   process_file fs out_fpath legislator_data output_fpath true
     restrict_to_gop_dem speeches (i, path) = ([], Ok speeches))
  /\ (forall remove_procedural,
         remove_procedural && str_in (d_title data) PROCEDURAL_TITLES = false ->
         process_file fs out_fpath legislator_data output_fpath
           remove_procedural restrict_to_gop_dem speeches (i, path)
         = (collect_date data ≫= fun date =>
              for_each
                (process_speech out_fpath legislator_data output_fpath
                   restrict_to_gop_dem i path data date)
                (d_content data) speeches))
  /\ (forall month day,
         MONTH_MAP !! h_month (d_header data) = Some month ->
         py_int (Line := FlattenedSpeechRecord) (h_day (d_header data))
         = ([], Ok day) ->
         let date :=
           py_str (h_year (d_header data)) ++ u "-" ++ month ++ u "-"
             ++ format_02 day in
         (length date <> 10%nat -> collect_date data = ([], Raise AssertionError))
         /\ (length date = 10%nat -> collect_date data = ([], Ok date))).
Proof.
  intros Hfs. unfold process_file, load_json. rewrite Hfs.
  split; [|split].
  - intros Htitle. now rewrite bind_ret_l, Htitle.
  - intros remove_procedural Hskip. now rewrite bind_ret_l, Hskip.
  - intros month day Hmonth Hday. unfold collect_date, dict_get.
    rewrite Hmonth, bind_ret_l, Hday.
    change ([], Ok day) with (ret (Line := FlattenedSpeechRecord) day).
    rewrite bind_ret_l.
    split; intros Hlen.
    + apply Nat.eqb_neq in Hlen. now rewrite Hlen.
    + apply Nat.eqb_eq in Hlen. now rewrite Hlen.
Qed.

Lemma title_check_precedes_date_check_witness :
  process_file ex_fs (Some ex_out) ex_legislators (Some (PathObj ex_out)) true
    false (Some []) (0%nat, u "adjournment.json") = ([], Ok (Some []))
  /\ collect_date doc_bad_year = ([], Raise AssertionError).
Proof.
  split.
  - apply (proj1 (title_check_precedes_date_check ex_fs (Some ex_out)
                    ex_legislators (Some (PathObj ex_out)) false (Some [])
                    0%nat (u "adjournment.json") doc_adjournment eq_refl)).
    reflexivity.
  - apply (proj2 (proj2 (title_check_precedes_date_check ex_fs (Some ex_out)
                    ex_legislators (Some (PathObj ex_out)) false (Some [])
                    0%nat (u "bad_year.json") doc_bad_year eq_refl))
             (u "03") 3%Z).
    + reflexivity.
    + reflexivity.
    + vm_compute. lia.
Defined.

(** * Further properties of the code *)

(** ** The order on strings *)

Lemma str_le_refl (a : pystr) : str_le a a = true.
Proof.
  induction a as [|x a IH]; simpl; [reflexivity|].
  now rewrite N.ltb_irrefl, N.eqb_refl.
Qed.

Lemma str_le_trans (a b c : pystr) :
  str_le a b = true -> str_le b c = true -> str_le a c = true.
Proof.
  revert b c; induction a as [|x a IH]; intros [|y b] [|z c]; simpl;
    try congruence.
  destruct (N.ltb_spec x y), (N.eqb_spec x y), (N.ltb_spec y z),
    (N.eqb_spec y z), (N.ltb_spec x z), (N.eqb_spec x z);
    try congruence; try lia; apply IH.
Qed.

Lemma str_le_antisym (a b : pystr) :
  str_le a b = true -> str_le b a = true -> a = b.
Proof.
  revert b; induction a as [|x a IH]; intros [|y b]; simpl; try congruence.
  destruct (N.ltb_spec x y), (N.eqb_spec x y), (N.ltb_spec y x),
    (N.eqb_spec y x); try congruence; try lia.
  intros Hab Hba. subst y. f_equal. now apply IH.
Qed.

Lemma str_le_total (a b : pystr) : str_le a b = true \/ str_le b a = true.
Proof.
  revert b; induction a as [|x a IH]; intros [|y b]; simpl; auto.
  destruct (N.ltb_spec x y), (N.eqb_spec x y), (N.ltb_spec y x),
    (N.eqb_spec y x); auto; lia.
Qed.

Lemma str_lt_le (a b : pystr) : str_lt a b = negb (str_le b a).
Proof.
  revert b; induction a as [|x a IH]; intros [|y b]; simpl; try reflexivity.
  rewrite IH.
  destruct (N.ltb_spec x y), (N.eqb_spec x y), (N.ltb_spec y x),
    (N.eqb_spec y x); try reflexivity; lia.
Qed.

(** ** Term resolution, further *)

(** X1. When exactly one stored term contains the date, [filter_terms]
    returns it without a warning, wherever it stands in the list. *)
Theorem filter_terms_unique_cover {Line} (date : pystr) (terms : list Term)
  (term : Term) :
  In term terms -> covers date term = true ->
  (forall term', In term' terms -> covers date term' = true -> term' = term) ->
  filter_terms (Line := Line) date terms = ([], Ok term).
Proof.
  intros Hin Hc Huniq.
  assert (Hne : terms <> []) by (intros ->; exact Hin).
  destruct (filter_terms_cases (Line := Line) date terms Hne)
    as [(pre & t & post & Ht & Hct & _ & Hf)|(pre & t & _ & Hun & _)].
  - rewrite Hf. f_equal. f_equal. apply Huniq; [|exact Hct].
    rewrite Ht. apply in_or_app. right. now left.
  - unfold uncovered in Hun. rewrite List.Forall_forall in Hun.
    specialize (Hun term Hin). congruence.
Qed.

Lemma filter_terms_unique_cover_witness :
  filter_terms (Line := FlattenedSpeechRecord) (u "2014-06-01")
    [term_2013; term_2015] = ([], Ok term_2013).
Proof.
  apply filter_terms_unique_cover.
  - now left.
  - reflexivity.
  - intros term' [<-|[<-|[]]]; [reflexivity | discriminate].
Defined.

(** X2. A term whose start is after its end contains no date; when
    [filter_terms] returns such a term it is the one stored last, returned
    by the fallback, and a warning was logged. *)
Theorem inverted_term_only_by_fallback {Line} (date : pystr)
  (terms : list Term) (term : Term) (evs : list (Event Line)) :
  str_le (t_start term) (t_end term) = false ->
  covers date term = false
  /\ (filter_terms date terms = (evs, Ok term) ->
      evs = [Warning (no_overlap_msg date term)]
      /\ exists pre, terms = pre ++ [term]).
Proof.
  intros Hinv.
  assert (Hc : forall d, covers d term = false).
  { intros d. unfold covers.
    destruct (str_le (t_start term) d) eqn:H1; [|reflexivity].
    destruct (str_le d (t_end term)) eqn:H2; [|reflexivity].
    rewrite (str_le_trans _ _ _ H1 H2) in Hinv. discriminate. }
  split; [apply Hc|]. intros Hf.
  destruct terms as [|t0 terms'].
  - unfold filter_terms in Hf. cbn [rev scan_terms] in Hf.
    rewrite getitem_nil in Hf. discriminate.
  - destruct (filter_terms_cases (Line := Line) date (t0 :: terms'))
      as [(pre & t & post & _ & Hct & _ & Hf')|(pre & t & Ht & _ & Hf')];
      [discriminate | |]; rewrite Hf' in Hf; injection Hf as <- ->.
    + rewrite Hc in Hct. discriminate.
    + split; [reflexivity | now exists pre].
Qed.

Lemma inverted_term_only_by_fallback_witness :
  covers (u "2016-01-01") term_inverted = false
  /\ ([Warning (no_overlap_msg (u "2016-01-01") term_inverted)]
      = [Warning (Line := FlattenedSpeechRecord)
           (no_overlap_msg (u "2016-01-01") term_inverted)]
      /\ exists pre, [term_2013; term_inverted] = pre ++ [term_inverted]).
Proof.
  pose proof (inverted_term_only_by_fallback (Line := FlattenedSpeechRecord)
                (u "2016-01-01") [term_2013; term_inverted] term_inverted
                [Warning (no_overlap_msg (u "2016-01-01") term_inverted)]
                eq_refl) as [Hcovers Hfallback].
  split; [exact Hcovers|]. apply Hfallback. reflexivity.
Defined.

(** ** The legislator index *)

Lemma index_fold_union (raw_data : list RawLegislator)
  (acc : gmap pystr Legislator) :
  fold_left
    (fun legislator_data leg =>
       <[ id_bioguide (leg_id leg) := legislator_entry leg ]> legislator_data)
    raw_data acc
  = process_legislator_data raw_data ∪ acc.
Proof.
  unfold process_legislator_data.
  revert acc; induction raw_data as [|leg raw_data IH]; intros acc; simpl.
  - now rewrite (left_id_L ∅ (∪)).
  - rewrite IH, (IH (<[_:=_]> ∅)).
    rewrite insert_empty, <- (assoc_L (∪)).
    now rewrite <- insert_union_singleton_l.
Qed.

Lemma index_snoc (raw_data : list RawLegislator) (leg : RawLegislator) :
  process_legislator_data (raw_data ++ [leg])
  = <[ id_bioguide (leg_id leg) := legislator_entry leg ]>
      (process_legislator_data raw_data).
Proof.
  unfold process_legislator_data. now rewrite fold_left_app.
Qed.

Lemma index_app (raw_a raw_b : list RawLegislator) :
  process_legislator_data (raw_a ++ raw_b)
  = process_legislator_data raw_b ∪ process_legislator_data raw_a.
Proof.
  unfold process_legislator_data at 1. rewrite fold_left_app.
  apply index_fold_union.
Qed.

(** X3. Processing two lists of raw records one after the other gives
    the index of the second laid over the index of the first: where both
    have an identifier, the record of the second list stands; an
    identifier that only the first has keeps its record. *)
Theorem index_of_concatenation (raw_a raw_b : list RawLegislator) :
  process_legislator_data (raw_a ++ raw_b)
  = process_legislator_data raw_b ∪ process_legislator_data raw_a
  /\ forall speaker_id,
       process_legislator_data (raw_a ++ raw_b) !! speaker_id
       = match process_legislator_data raw_b !! speaker_id with
         | Some legislator => Some legislator
         | None => process_legislator_data raw_a !! speaker_id
         end.
Proof.
  split; [apply index_app|]. intros speaker_id. rewrite index_app.
  destruct (process_legislator_data raw_b !! speaker_id) as [l|] eqn:Hb.
  - now apply lookup_union_Some_l.
  - now rewrite lookup_union_r.
Qed.

(** X4. The index holds, under an identifier, the entry of the last raw
    record with that identifier (its names, gender and terms unchanged),
    and holds nothing under an identifier that no raw record has. *)
Theorem index_lookup (raw_data : list RawLegislator) (speaker_id : pystr) :
  (forall pre leg post,
      raw_data = pre ++ leg :: post ->
      id_bioguide (leg_id leg) = speaker_id ->
      Forall (fun leg' => id_bioguide (leg_id leg') <> speaker_id) post ->
      process_legislator_data raw_data !! speaker_id
      = Some (legislator_entry leg))
  /\ (Forall (fun leg' => id_bioguide (leg_id leg') <> speaker_id) raw_data <->
      process_legislator_data raw_data !! speaker_id = None).
Proof.
  assert (Hnone : forall l,
             Forall (fun leg' => id_bioguide (leg_id leg') <> speaker_id) l ->
             process_legislator_data l !! speaker_id = None).
  { intros l. induction l as [|leg l IH] using rev_ind; intros Hl.
    - reflexivity.
    - apply Forall_app in Hl as [Hl Hleg]. inversion Hleg; subst.
      rewrite index_snoc, lookup_insert_ne by assumption. now apply IH. }
  split.
  - intros pre leg post -> <- Hpost.
    change (pre ++ leg :: post) with (pre ++ [leg] ++ post).
    rewrite app_assoc, index_app.
    rewrite lookup_union_r by now apply Hnone.
    now rewrite index_snoc, lookup_insert_eq.
  - split; [apply Hnone|].
    induction raw_data as [|leg l IH] using rev_ind; intros Hk; [constructor|].
    rewrite index_snoc in Hk.
    destruct (decide (id_bioguide (leg_id leg) = speaker_id)) as [He|Hne].
    + rewrite He, lookup_insert_eq in Hk. discriminate.
    + rewrite lookup_insert_ne in Hk by assumption.
      apply Forall_app. split; [now apply IH | now repeat constructor].
Qed.

Lemma index_lookup_witness :
  process_legislator_data ([raw_smith_old] ++ raw_smith :: []) !! u "S000001"
  = Some smith.
Proof.
  apply (proj1 (index_lookup _ (u "S000001")) [raw_smith_old] raw_smith []
           eq_refl eq_refl).
  constructor.
Defined.

(** Every entry of the index is the entry of a raw record with its key. *)
Lemma index_entry_origin (raw_data : list RawLegislator) (speaker_id : pystr)
  (legislator : Legislator) :
  process_legislator_data raw_data !! speaker_id = Some legislator ->
  exists leg,
    In leg raw_data /\ id_bioguide (leg_id leg) = speaker_id
    /\ legislator = legislator_entry leg.
Proof.
  induction raw_data as [|leg l IH] using rev_ind; [discriminate|].
  rewrite index_snoc.
  destruct (decide (id_bioguide (leg_id leg) = speaker_id)) as [He|Hne].
  - rewrite He, lookup_insert_eq. intros [= <-].
    exists leg. split; [apply in_or_app; right; now left | now split].
  - rewrite lookup_insert_ne by assumption. intros H.
    destruct (IH H) as (leg' & Hin & Hid & Hl).
    exists leg'. split; [apply in_or_app; now left | now split].
Qed.

(** ** What a run writes and how it fails *)

Section Fails.

Context {Line : Type}.
Variable E : exn -> Prop.

Lemma fails_ret {A} (a : A) : fails_with (Line := Line) E (ret a).
Proof. intros e. discriminate. Qed.

Lemma fails_raise {A} (e : exn) : E e -> fails_with (Line := Line) (A := A) E (raise e).
Proof. intros He e' [= <-]. exact He. Qed.

Lemma fails_bind {A B} (m : M Line A) (k : A -> M Line B) :
  fails_with E m -> (forall a, snd m = Ok a -> fails_with E (k a)) ->
  fails_with E (m ≫= k).
Proof.
  destruct m as [evs [a|e]]; intros Hm Hk e'; msimpl.
  - specialize (Hk a eq_refl e'). destruct (k a) as [evs' r]. exact Hk.
  - intros [= <-]. now apply Hm.
Qed.

Lemma fails_for_each {A S} (body : S -> A -> M Line S) (xs : list A) :
  (forall s x, In x xs -> fails_with E (body s x)) ->
  forall s, fails_with E (for_each body xs s).
Proof.
  induction xs as [|x xs IH]; intros Hbody s; cbn [for_each].
  - apply fails_ret.
  - apply (fails_bind (body s x) (for_each body xs)).
    + apply Hbody. now left.
    + intros s' _. apply IH. intros s0 x0 Hx0. apply Hbody. now right.
Qed.

End Fails.

Lemma enumerate_nth {A} (l : list A) (i : nat) (x : A) :
  In (i, x) (enumerate l) -> nth_error l i = Some x.
Proof.
  unfold enumerate.
  assert (H : forall n, In (i, x) (combine (seq n (length l)) l) ->
                        (n <= i)%nat /\ nth_error l (i - n) = Some x).
  { induction l as [|y l IH]; intros n; simpl; [tauto|].
    intros [[= <- <-]|Hin].
    - split; [lia|]. now rewrite Nat.sub_diag.
    - destruct (IH (S n) Hin) as [Hle Hnth]. split; [lia|].
      replace (i - n)%nat with (S (i - S n)) by lia. exact Hnth. }
  intros Hin. destruct (H 0%nat Hin) as [_ Hnth].
  now rewrite Nat.sub_0_r in Hnth.
Qed.

Lemma collect_date_events (data : Document) : fst (collect_date data) = [].
Proof.
  unfold collect_date, dict_get, py_int.
  destruct (MONTH_MAP !! _); [|reflexivity]. rewrite bind_ret_l.
  destruct (h_day _) as [day|day];
    [destruct (int_of_str day); [|reflexivity]|];
    rewrite bind_ret_l; now destruct (_ =? _)%nat.
Qed.

Section RunFacts.

Variable fs : pystr -> file Document.
Variable out_fpath : option pystr.
Variable legislator_data : gmap pystr Legislator.
Variable output_fpath : option fpath_arg.
Variable remove_procedural : bool.
Variable restrict_to_gop_dem : bool.
Variable input_paths : list pystr.

Local Abbreviation from_some_document :=
  (fun r => exists i, from_document fs remove_procedural input_paths i r).
Local Abbreviation Sink :=
  (respects (sink_event fs out_fpath output_fpath remove_procedural input_paths)
     (gathered from_some_document)).
Local Abbreviation Fails :=
  (fails_with (run_failure fs out_fpath legislator_data output_fpath
                 remove_procedural input_paths)).

Lemma save_sink (i : nat) (speeches : option (list FlattenedSpeechRecord))
  (r : FlattenedSpeechRecord) :
  gathered from_some_document speeches ->
  from_document fs remove_procedural input_paths i r ->
  Sink (save out_fpath output_fpath i speeches r).
Proof.
  intros Hsp Hr. unfold save, append.
  destruct output_fpath as [dest|] eqn:Hdest.
  - destruct out_fpath as [p|]; [|apply respects_raise].
    split; [|now intros s [= <-]].
    repeat constructor; [discriminate|]. now exists i.
  - destruct speeches as [l|]; [|apply respects_raise].
    apply respects_ret. simpl in *. apply Forall_app. split; [exact Hsp|].
    repeat constructor. now exists i.
Qed.

Lemma save_fails (i : nat) (speeches : option (list FlattenedSpeechRecord))
  (r : FlattenedSpeechRecord) :
  Fails (save out_fpath output_fpath i speeches r).
Proof.
  unfold save, append.
  destruct output_fpath as [dest|] eqn:Hdest.
  - destruct out_fpath as [p|] eqn:Hp; [intros e; discriminate|].
    apply fails_raise. simpl. split; [discriminate | reflexivity].
  - destruct speeches as [l|]; [apply fails_ret | now apply fails_raise].
Qed.

Lemma process_speech_sink (i : nat) (path : pystr) (data : Document)
  (date : pystr) (speeches : option (list FlattenedSpeechRecord))
  (speech : Speech) :
  nth_error input_paths i = Some path -> fs path = Json data ->
  remove_procedural && str_in (d_title data) PROCEDURAL_TITLES = false ->
  snd (collect_date data) = Ok date -> In speech (d_content data) ->
  gathered from_some_document speeches ->
  Sink (process_speech out_fpath legislator_data output_fpath
          restrict_to_gop_dem i path data date speeches speech).
Proof.
  intros Hnth Hfs Hskip Hdate Hin Hsp. unfold process_speech.
  destruct (str_eqb _ _); [|now apply respects_ret].
  destruct (attributed _) as [speaker_id|]; [|now apply respects_ret].
  unfold dict_get.
  destruct (legislator_data !! speaker_id) as [legislator|];
    [|apply respects_raise].
  rewrite bind_ret_l.
  eapply respects_bind with (IA := fun _ => True).
  - destruct (filter_terms_respects (Line := FlattenedSpeechRecord)
                (fun _ => False) date (l_terms legislator)) as [Hw _].
    split; [|easy]. eapply List.Forall_impl; [|exact Hw].
    now intros [msg|p mode r].
  - intros term _.
    destruct (resolve_party _ _) as [party|]; [|now apply respects_ret].
    apply save_sink; [exact Hsp|].
    now exists path, data, date, speech.
Qed.

Lemma process_speech_fails (i : nat) (path : pystr) (data : Document)
  (date : pystr) (speeches : option (list FlattenedSpeechRecord))
  (speech : Speech) :
  processed fs remove_procedural input_paths path data ->
  In speech (d_content data) ->
  Fails (process_speech out_fpath legislator_data output_fpath
           restrict_to_gop_dem i path data date speeches speech).
Proof.
  intros Hproc Hin. unfold process_speech.
  destruct (str_eqb _ _) eqn:Hkind; [|apply fails_ret].
  apply str_eqb_eq in Hkind.
  destruct (attributed _) as [speaker_id|] eqn:Hatt; [|apply fails_ret].
  unfold dict_get.
  destruct (legislator_data !! speaker_id) as [legislator|] eqn:Hleg.
  - rewrite bind_ret_l. apply fails_bind.
    + destruct (l_terms legislator) as [|t0 terms'] eqn:Hterms.
      * unfold filter_terms. cbn [rev scan_terms]. rewrite getitem_nil.
        apply fails_raise. simpl.
        now exists path, data, speech, speaker_id, legislator.
      * destruct (filter_terms_cases (Line := FlattenedSpeechRecord) date
                    (t0 :: terms'))
          as [(? & ? & ? & _ & _ & _ & Hf)|(? & ? & _ & _ & Hf)];
          [discriminate | |]; rewrite Hf; intros e; discriminate.
    + intros term _.
      destruct (resolve_party _ _); [apply save_fails | apply fails_ret].
  - apply fails_raise. simpl. right.
    now exists path, data, speech.
Qed.

Lemma process_file_sink (speeches : option (list FlattenedSpeechRecord))
  (i : nat) (path : pystr) :
  nth_error input_paths i = Some path ->
  gathered from_some_document speeches ->
  Sink (process_file fs out_fpath legislator_data output_fpath
          remove_procedural restrict_to_gop_dem speeches (i, path)).
Proof.
  intros Hnth Hsp. unfold process_file, load_json.
  destruct (fs path) as [data|] eqn:Hfs; [|apply respects_raise].
  rewrite bind_ret_l.
  destruct (remove_procedural && _) eqn:Hskip; [now apply respects_ret|].
  eapply respects_bind with (IA := fun date => snd (collect_date data) = Ok date).
  - split; [now rewrite collect_date_events | easy].
  - intros date Hdate. apply respects_for_each; [|exact Hsp].
    intros s speech Hin Hs. now apply process_speech_sink.
Qed.

Lemma collect_date_fails (path : pystr) (data : Document) :
  processed fs remove_procedural input_paths path data ->
  Fails (collect_date data).
Proof.
  intros Hproc. unfold collect_date, dict_get, py_int.
  destruct (MONTH_MAP !! _) as [month|] eqn:Hmonth.
  - rewrite bind_ret_l.
    destruct (h_day (d_header data)) as [day|day] eqn:Hday.
    + destruct (int_of_str day) as [z|] eqn:Hint.
      * rewrite bind_ret_l. destruct (_ =? _)%nat eqn:Hlen;
          [apply fails_ret | apply fails_raise].
        simpl. exists path, data, month, z. rewrite Hday. simpl.
        rewrite Hint.
        refine (conj Hproc (conj Hmonth (conj eq_refl _))).
        now apply Nat.eqb_neq.
      * apply fails_raise. simpl. now exists path, data, day.
    + rewrite bind_ret_l. destruct (_ =? _)%nat eqn:Hlen;
        [apply fails_ret | apply fails_raise].
      simpl. exists path, data, month, day. rewrite Hday.
      refine (conj Hproc (conj Hmonth (conj eq_refl _))).
      now apply Nat.eqb_neq.
  - apply fails_raise. simpl. left. now exists path, data.
Qed.

Lemma process_file_fails (speeches : option (list FlattenedSpeechRecord))
  (i : nat) (path : pystr) :
  In path input_paths ->
  Fails (process_file fs out_fpath legislator_data output_fpath
           remove_procedural restrict_to_gop_dem speeches (i, path)).
Proof.
  intros Hin. unfold process_file, load_json.
  destruct (fs path) as [data|why] eqn:Hfs.
  - rewrite bind_ret_l.
    destruct (remove_procedural && _) eqn:Hskip; [apply fails_ret|].
    assert (Hproc : processed fs remove_procedural input_paths path data)
      by now repeat split.
    apply fails_bind; [now apply (collect_date_fails path)|].
    intros date _. apply fails_for_each.
    intros s speech Hsp. now apply process_speech_fails.
  - apply fails_raise. destruct why; simpl; now exists path.
Qed.

(** The writes of a run and the records it gathers come from the
    documents of the input paths. *)
Lemma run_sink :
  Sink (process_and_speech_data fs out_fpath legislator_data output_fpath
          remove_procedural restrict_to_gop_dem input_paths).
Proof.
  unfold process_and_speech_data. apply respects_for_each.
  - intros s [i path] Hin Hs. apply process_file_sink; [|exact Hs].
    now apply enumerate_nth.
  - destruct (truthy output_fpath); simpl; [constructor | exact I].
Qed.

(** An exception that ends a run has its cause in the input. *)
Lemma run_fails :
  Fails (process_and_speech_data fs out_fpath legislator_data output_fpath
           remove_procedural restrict_to_gop_dem input_paths).
Proof.
  unfold process_and_speech_data. apply fails_for_each.
  intros s [i path] Hin. apply process_file_fails.
  apply enumerate_nth in Hin. now apply nth_error_In in Hin.
Qed.

End RunFacts.

Lemma collect_date_shape (data : Document) (date : pystr) :
  snd (collect_date data) = Ok date ->
  length date = 10%nat
  /\ exists month day,
       MONTH_MAP !! h_month (d_header data) = Some month
       /\ py_int (Line := FlattenedSpeechRecord) (h_day (d_header data))
          = ([], Ok day)
       /\ date = py_str (h_year (d_header data)) ++ u "-" ++ month ++ u "-"
                   ++ format_02 day.
Proof.
  unfold collect_date, dict_get.
  destruct (MONTH_MAP !! _) as [month|]; [|discriminate].
  rewrite bind_ret_l.
  destruct (py_int (h_day (d_header data))) as [evs [day|e]] eqn:Hday.
  - assert (evs = []) as ->.
    { unfold py_int in Hday. destruct (h_day _) as [s|z];
        [destruct (int_of_str s)|]; now injection Hday. }
    change ([], Ok day) with (ret (Line := FlattenedSpeechRecord) day).
    rewrite bind_ret_l.
    destruct (_ =? _)%nat eqn:Hlen; [|discriminate].
    intros [= <-]. split; [now apply Nat.eqb_eq|]. now exists month, day.
  - discriminate.
Qed.

Lemma emitted_from_documents (fs : pystr -> file Document)
  (out_fpath : option pystr) (legislator_data : gmap pystr Legislator)
  (output_fpath : option fpath_arg) (remove_procedural restrict_to_gop_dem : bool)
  (input_paths : list pystr) :
  Forall (fun r => exists i, from_document fs remove_procedural input_paths i r)
    (emitted (process_and_speech_data fs out_fpath legislator_data
                output_fpath remove_procedural restrict_to_gop_dem
                input_paths)).
Proof.
  destruct (run_sink fs out_fpath legislator_data output_fpath
              remove_procedural restrict_to_gop_dem input_paths)
    as [Hevs Hres].
  unfold emitted, returned. apply Forall_app. split.
  - apply written_forall. eapply List.Forall_impl; [|exact Hevs].
    intros [msg|p mode r]; simpl; [easy|].
    intros (_ & _ & i & Hr & _). now exists i.
  - destruct (snd _) as [[l|]|e]; [|constructor..].
    exact (Hres (Some l) eq_refl).
Qed.

(** X5. A run ends with [NameError] only if a destination is passed
    while the global [out_fpath] is not bound; with [IndexError] only if
    a speech item of a document that is read and not skipped has a
    speaker whose list of terms in the index is empty; with
    [AssertionError] only if a document that is read and not skipped
    gives a date that is not 10 code points long. *)
Theorem run_exception_has_cause (fs : pystr -> file Document)
  (out_fpath : option pystr) (legislator_data : gmap pystr Legislator)
  (output_fpath : option fpath_arg) (remove_procedural restrict_to_gop_dem : bool)
  (input_paths : list pystr) (e : exn) :
  snd (process_and_speech_data fs out_fpath legislator_data output_fpath
         remove_procedural restrict_to_gop_dem input_paths) = Raise e ->
  (e = NameError -> output_fpath <> None /\ out_fpath = None)
  /\ (e = IndexError ->
      exists path data speech speaker_id legislator,
        processed fs remove_procedural input_paths path data
        /\ In speech (d_content data)
        /\ attributed (s_speaker_bioguide speech) = Some speaker_id
        /\ legislator_data !! speaker_id = Some legislator
        /\ l_terms legislator = [])
  /\ (e = AssertionError ->
      exists path data month day,
        processed fs remove_procedural input_paths path data
        /\ MONTH_MAP !! h_month (d_header data) = Some month
        /\ py_int (Line := FlattenedSpeechRecord) (h_day (d_header data))
           = ([], Ok day)
        /\ length (py_str (h_year (d_header data)) ++ u "-" ++ month
                   ++ u "-" ++ format_02 day) <> 10%nat).
Proof.
  intros Hrun. apply run_fails in Hrun.
  split; [|split]; intros ->; exact Hrun.
Qed.

Lemma run_exception_has_cause_witness :
  exists path data month day,
    processed ex_fs true [u "adjournment.json"; u "bad_year.json"] path data
    /\ MONTH_MAP !! h_month (d_header data) = Some month
    /\ py_int (Line := FlattenedSpeechRecord) (h_day (d_header data))
       = ([], Ok day)
    /\ length (py_str (h_year (d_header data)) ++ u "-" ++ month
               ++ u "-" ++ format_02 day) <> 10%nat.
Proof.
  apply (proj2 (proj2 (run_exception_has_cause ex_fs (Some ex_out)
                         ex_legislators (Some (PathObj ex_out)) true false
                         [u "adjournment.json"; u "bad_year.json"]
                         AssertionError eq_refl))).
  reflexivity.
Defined.

(** X6. The date of every record written or returned is the date made
    from the header of its document: the year as given, a hyphen, the
    two-digit number of the month, a hyphen, the day padded to two; and
    it is 10 code points long. *)
Theorem emitted_dates_well_formed (fs : pystr -> file Document)
  (out_fpath : option pystr) (legislator_data : gmap pystr Legislator)
  (output_fpath : option fpath_arg) (remove_procedural restrict_to_gop_dem : bool)
  (input_paths : list pystr) :
  Forall
    (fun r =>
       length (r_date r) = 10%nat
       /\ exists data month day,
            fs (r_source_file r) = Json data
            /\ MONTH_MAP !! h_month (d_header data) = Some month
            /\ py_int (Line := FlattenedSpeechRecord) (h_day (d_header data))
               = ([], Ok day)
            /\ r_date r = py_str (h_year (d_header data)) ++ u "-" ++ month
                            ++ u "-" ++ format_02 day)
    (emitted (process_and_speech_data fs out_fpath legislator_data
                output_fpath remove_procedural restrict_to_gop_dem
                input_paths)).
Proof.
  eapply List.Forall_impl; [|apply emitted_from_documents].
  intros r (i & path & data & date & speech & _ & Hfs & _ & Hdate & _
            & Hsrc & _ & _ & Hr & _).
  apply collect_date_shape in Hdate as (Hlen & month & day & Hm & Hd & ->).
  rewrite Hr, Hsrc. split; [exact Hlen|]. now exists data, month, day.
Qed.

(** X7. With [remove_procedural], no record written or returned has a
    title of the table of procedural titles. *)
Theorem procedural_titles_not_emitted (fs : pystr -> file Document)
  (out_fpath : option pystr) (legislator_data : gmap pystr Legislator)
  (output_fpath : option fpath_arg) (restrict_to_gop_dem : bool)
  (input_paths : list pystr) :
  Forall (fun r => ~ In (r_title r) PROCEDURAL_TITLES)
    (emitted (process_and_speech_data fs out_fpath legislator_data
                output_fpath true restrict_to_gop_dem input_paths)).
Proof.
  eapply List.Forall_impl; [|apply emitted_from_documents].
  intros r (i & path & data & date & speech & _ & _ & Hskip & _ & _ & _
            & Htitle & _) Hin.
  rewrite Htitle in Hin. cbn [andb] in Hskip.
  assert (Htrue : str_in (d_title data) PROCEDURAL_TITLES = true).
  { apply existsb_exists. exists (d_title data).
    split; [exact Hin | apply str_eqb_refl]. }
  congruence.
Qed.

(** X8. Every record written or returned carries the path, title and
    chamber of a document read from one of the input paths, and its
    identifier is the identifier of that document, an underscore, and the
    number of one of its items. *)
Theorem emitted_document_fields (fs : pystr -> file Document)
  (out_fpath : option pystr) (legislator_data : gmap pystr Legislator)
  (output_fpath : option fpath_arg) (remove_procedural restrict_to_gop_dem : bool)
  (input_paths : list pystr) :
  Forall
    (fun r =>
       exists data speech,
         In (r_source_file r) input_paths
         /\ fs (r_source_file r) = Json data
         /\ In speech (d_content data)
         /\ r_title r = d_title data
         /\ r_chamber r = h_chamber (d_header data)
         /\ r_id r = py_str (d_id data) ++ u "_" ++ py_str (s_itemno speech))
    (emitted (process_and_speech_data fs out_fpath legislator_data
                output_fpath remove_procedural restrict_to_gop_dem
                input_paths)).
Proof.
  eapply List.Forall_impl; [|apply emitted_from_documents].
  intros r (i & path & data & date & speech & Hnth & Hfs & _ & _ & Hin
            & Hsrc & Htitle & Hch & _ & Hid).
  exists data, speech. rewrite Hsrc.
  apply nth_error_In in Hnth. now repeat split.
Qed.

(** X9. Every record written or returned carries the names and gender
    that the index holds under its speaker identifier, and the state of
    one of that legislator's terms; the identifier is neither empty nor
    the string "None". *)
Theorem emitted_legislator_fields (fs : pystr -> file Document)
  (out_fpath : option pystr) (legislator_data : gmap pystr Legislator)
  (output_fpath : option fpath_arg) (remove_procedural restrict_to_gop_dem : bool)
  (input_paths : list pystr) :
  Forall
    (fun r =>
       r_speaker_id r <> [] /\ r_speaker_id r <> u "None"
       /\ exists legislator term,
            legislator_data !! r_speaker_id r = Some legislator
            /\ In term (l_terms legislator)
            /\ r_first_name r = l_first_name legislator
            /\ r_last_name r = l_last_name legislator
            /\ r_gender r = l_gender legislator
            /\ r_state r = t_state term)
    (emitted (process_and_speech_data fs out_fpath legislator_data
                output_fpath remove_procedural restrict_to_gop_dem
                input_paths)).
Proof.
  eapply List.Forall_impl; [|apply run_emitted_from_speech].
  intros r (path & data & date & speech & speaker_id & legislator & term
            & party & _ & _ & _ & Hatt & Hleg & Hterm & _ & _ & ->).
  cbn [clean_data r_speaker_id r_first_name r_last_name r_gender r_state].
  unfold attributed in Hatt.
  destruct (s_speaker_bioguide speech) as [b|]; [|discriminate].
  destruct (str_eqb b (u "None")) eqn:Hnone; [discriminate|].
  destruct b as [|c b]; [discriminate|]. injection Hatt as <-.
  split; [discriminate|]. split.
  - intros Heq. rewrite Heq in Hnone. discriminate.
  - now exists legislator, term.
Qed.

(** X10. A run writes only to the file named by the global [out_fpath]
    and only when a destination is passed; a record is written in mode
    ["w"] only if its document is the first of the input paths, and in
    mode ["a"] only if its document is at a later place.  Without a
    destination nothing is written. *)
Theorem writes_target_and_mode (fs : pystr -> file Document)
  (out_fpath : option pystr) (legislator_data : gmap pystr Legislator)
  (output_fpath : option fpath_arg) (remove_procedural restrict_to_gop_dem : bool)
  (input_paths : list pystr) :
  Forall
    (fun e =>
       match e with
       | Warning _ => True
       | FileWrite p mode r =>
           out_fpath = Some p /\ output_fpath <> None
           /\ match mode with
              | ModeW => nth_error input_paths 0 = Some (r_source_file r)
              | ModeA =>
                  exists i, nth_error input_paths (S i) = Some (r_source_file r)
              end
       end)
    (fst (process_and_speech_data fs out_fpath legislator_data output_fpath
            remove_procedural restrict_to_gop_dem input_paths)).
Proof.
  destruct (run_sink fs out_fpath legislator_data output_fpath
              remove_procedural restrict_to_gop_dem input_paths) as [Hevs _].
  eapply List.Forall_impl; [|exact Hevs].
  intros [msg|p mode r]; simpl; [easy|].
  intros (Hp & Hdest & i & (path & data & date & speech & Hnth & _ & _ & _
                            & _ & Hsrc & _) & ->).
  split; [exact Hp|]. split; [exact Hdest|]. rewrite Hsrc.
  destruct i as [|i]; simpl; [exact Hnth | now exists i].
Qed.

(** ** Failures are not passed over *)

Section Raises.

Context {Line : Type}.

Lemma raises_bind_l {A B} (m : M Line A) (k : A -> M Line B) :
  raises m -> raises (m ≫= k).
Proof.
  destruct m as [evs [a|e]]; intros [e' He]; [discriminate|].
  now exists e.
Qed.

Lemma raises_bind_r {A B} (m : M Line A) (k : A -> M Line B) :
  (forall a, raises (k a)) -> raises (m ≫= k).
Proof.
  intros Hk. destruct m as [evs [a|e]]; msimpl; [|now exists e].
  destruct (Hk a) as [e He]. destruct (k a) as [evs' r]. now exists e.
Qed.

Lemma raises_for_each {A S} (body : S -> A -> M Line S) (xs : list A) (x : A) :
  In x xs -> (forall s, raises (body s x)) ->
  forall s, raises (for_each body xs s).
Proof.
  intros Hin Hx. induction xs as [|x0 xs IH]; [easy|]. intros s.
  cbn [for_each]. destruct Hin as [->|Hin].
  - apply (raises_bind_l (body s x) (for_each body xs)), Hx.
  - apply (raises_bind_r (body s x0) (for_each body xs)). now apply IH.
Qed.

End Raises.

Lemma enumerate_In {A} (l : list A) (x : A) :
  In x l -> exists i, In (i, x) (enumerate l).
Proof.
  unfold enumerate. generalize 0%nat.
  induction l as [|y l IH]; intros n; simpl; [easy|].
  intros [->|Hin].
  - exists n. now left.
  - destruct (IH (S n) Hin) as [i Hi]. exists i. now right.
Qed.

(** X11. A run does not pass over a failure: it ends with an exception
    whenever one of its input paths cannot be loaded, or holds a document
    that is not skipped for its title and whose date cannot be made, or
    that has a speech item whose speaker is missing from the index or has
    no terms there. *)
Theorem failing_document_fails_run (fs : pystr -> file Document)
  (out_fpath : option pystr) (legislator_data : gmap pystr Legislator)
  (output_fpath : option fpath_arg) (remove_procedural restrict_to_gop_dem : bool)
  (input_paths : list pystr) (path : pystr) :
  In path input_paths ->
  (exists why, fs path = LoadFails why)
  \/ (exists data,
         fs path = Json data
         /\ remove_procedural && str_in (d_title data) PROCEDURAL_TITLES = false
         /\ (raises (collect_date data)
             \/ exists speech speaker_id,
                  In speech (d_content data)
                  /\ s_kind speech = u "speech"
                  /\ attributed (s_speaker_bioguide speech) = Some speaker_id
                  /\ (legislator_data !! speaker_id = None
                      \/ exists legislator,
                           legislator_data !! speaker_id = Some legislator
                           /\ l_terms legislator = []))) ->
  raises (process_and_speech_data fs out_fpath legislator_data output_fpath
            remove_procedural restrict_to_gop_dem input_paths).
Proof.
  intros Hin Hbad. unfold process_and_speech_data.
  destruct (enumerate_In _ _ Hin) as [i Hi].
  apply (raises_for_each _ _ (i, path) Hi). intros speeches.
  unfold process_file, load_json.
  destruct Hbad as [[why Hfs]|(data & Hfs & Hskip & Hbad)]; rewrite Hfs.
  - now exists (load_exn why).
  - rewrite bind_ret_l, Hskip.
    destruct Hbad as [Hdate|(speech & speaker_id & Hsp & Hkind & Hatt & Hleg)].
    + now apply raises_bind_l.
    + apply raises_bind_r. intros date.
      apply (raises_for_each _ _ speech Hsp). intros s.
      unfold process_speech. rewrite Hkind, str_eqb_refl, Hatt.
      unfold dict_get.
      destruct Hleg as [Hleg|(legislator & Hleg & Hterms)]; rewrite Hleg.
      * now exists (KeyError speaker_id).
      * rewrite bind_ret_l, Hterms. apply raises_bind_l.
        exists IndexError. unfold filter_terms. cbn [rev scan_terms].
        now rewrite getitem_nil.
Qed.

Lemma failing_document_fails_run_witness :
  raises (process_and_speech_data ex_fs (Some ex_out) ∅
            (Some (PathObj ex_out)) false false
            [u "adjournment.json"; u "floor.json"]).
Proof.
  apply (failing_document_fails_run ex_fs (Some ex_out) ∅
           (Some (PathObj ex_out)) false false
           [u "adjournment.json"; u "floor.json"] (u "floor.json")).
  - right. now left.
  - right. exists doc_floor. split; [reflexivity|]. split; [reflexivity|].
    right. exists (mk_speech 1 "Mr. SMITH. Thank you, Madam Speaker."),
      (u "S000001").
    split; [now left|]. split; [reflexivity|]. split; [reflexivity|].
    left. reflexivity.
Defined.

(** X12. An item is taken as a speech of a legislator only if its kind
    is "speech" and its speaker identifier is a string other than the
    empty one and "None"; any other item leaves the loop body with
    nothing written, logged or gathered and with no exception, whatever
    the index holds. *)
Theorem unattributed_item_skipped (out_fpath : option pystr)
  (legislator_data : gmap pystr Legislator) (output_fpath : option fpath_arg)
  (restrict_to_gop_dem : bool) (i : nat) (path : pystr) (data : Document)
  (date : pystr) (speeches : option (list FlattenedSpeechRecord))
  (speech : Speech) :
  (attributed (s_speaker_bioguide speech) = None <->
   s_speaker_bioguide speech = None \/ s_speaker_bioguide speech = Some []
   \/ s_speaker_bioguide speech = Some (u "None"))
  /\ (s_kind speech <> u "speech"
      \/ attributed (s_speaker_bioguide speech) = None ->
      process_speech out_fpath legislator_data output_fpath
        restrict_to_gop_dem i path data date speeches speech
      = ([], Ok speeches)).
Proof.
  split.
  - unfold attributed. destruct (s_speaker_bioguide speech) as [b|].
    + destruct (str_eqb b (u "None")) eqn:Hnone.
      * apply str_eqb_eq in Hnone. subst b. split; [auto | reflexivity].
      * destruct b as [|c b]; [split; [auto | reflexivity]|].
        split; [discriminate|].
        intros [H|[H|H]]; [discriminate | discriminate |].
        assert (Hb : c :: b = u "None") by congruence.
        rewrite Hb, str_eqb_refl in Hnone. discriminate.
    + split; [auto | reflexivity].
  - unfold process_speech. intros [Hkind|Hatt].
    + destruct (str_eqb _ _) eqn:Heq; [|reflexivity].
      apply str_eqb_eq in Heq. contradiction.
    + rewrite Hatt. now destruct (str_eqb _ _).
Qed.

Lemma unattributed_item_skipped_witness :
  process_speech (Some ex_out) ∅ (Some (PathObj ex_out)) false 0 (u "floor.json")
    doc_floor (u "2015-03-03") (Some [])
    {| s_kind := u "speech"; s_speaker := u "The SPEAKER";
       s_speaker_bioguide := Some (u "None"); s_itemno := JInt 3;
       s_text := u "The question is on the motion." |}
  = ([], Ok (Some [])).
Proof.
  apply (proj2 (unattributed_item_skipped (Some ex_out) ∅
                  (Some (PathObj ex_out)) false 0 (u "floor.json") doc_floor
                  (u "2015-03-03") (Some []) _)).
  right. reflexivity.
Defined.

(** ** The script: the choice of the paths *)

Lemma min_loop_le (it : list pystr) (m x : pystr) :
  In x (m :: it) -> str_le (min_loop m it) x = true.
Proof.
  revert m x; induction it as [|y it IH]; intros m x.
  - intros [<-|[]]. apply str_le_refl.
  - cbn [min_loop]. rewrite str_lt_le.
    destruct (str_le m y) eqn:Hmy; cbn [negb].
    + intros [<-|[<-|Hin]].
      * apply IH. now left.
      * apply str_le_trans with m; [apply IH; now left | exact Hmy].
      * apply IH. now right.
    + assert (Hym : str_le y m = true)
        by (destruct (str_le_total y m); congruence).
      intros [<-|[<-|Hin]].
      * apply str_le_trans with y; [apply IH; now left | exact Hym].
      * apply IH. now left.
      * apply IH. now right.
Qed.

Lemma max_loop_ge (it : list pystr) (m x : pystr) :
  In x (m :: it) -> str_le x (max_loop m it) = true.
Proof.
  revert m x; induction it as [|y it IH]; intros m x.
  - intros [<-|[]]. apply str_le_refl.
  - cbn [max_loop]. rewrite str_lt_le.
    destruct (str_le y m) eqn:Hym; cbn [negb].
    + intros [<-|[<-|Hin]].
      * apply IH. now left.
      * apply str_le_trans with m; [exact Hym | apply IH; now left].
      * apply IH. now right.
    + assert (Hmy : str_le m y = true)
        by (destruct (str_le_total y m); congruence).
      intros [<-|[<-|Hin]].
      * apply str_le_trans with y; [exact Hmy | apply IH; now left].
      * apply IH. now left.
      * apply IH. now right.
Qed.

Lemma min_loop_In (it : list pystr) (m : pystr) : In (min_loop m it) (m :: it).
Proof.
  revert m; induction it as [|y it IH]; intros m; [now left|].
  cbn [min_loop]. destruct (IH (if str_lt y m then y else m)) as [H|H].
  - rewrite <- H. destruct (str_lt y m); [right; now left | now left].
  - right. now right.
Qed.

Lemma max_loop_In (it : list pystr) (m : pystr) : In (max_loop m it) (m :: it).
Proof.
  revert m; induction it as [|y it IH]; intros m; [now left|].
  cbn [max_loop]. destruct (IH (if str_lt m y then y else m)) as [H|H].
  - rewrite <- H. destruct (str_lt m y); [right; now left | now left].
  - right. now right.
Qed.

Lemma filter_all {A} (f : A -> bool) (l : list A) :
  (forall x, In x l -> f x = true) -> List.filter f l = l.
Proof.
  induction l as [|x l IH]; intros Hf; simpl; [reflexivity|].
  rewrite (Hf x (or_introl eq_refl)). f_equal. apply IH.
  intros y Hy. apply Hf. now right.
Qed.

(** The date that the script reads off a path. *)
Lemma filter_dates_ok {Line} (args : Args) (speech_paths kept : list SpeechPath)
  (start end_ : pystr) (evs : list (Event Line)) :
  filter_dates args speech_paths = (evs, Ok (kept, start, end_)) ->
  evs = []
  /\ kept
     = List.filter
         (fun p =>
            str_le start (replace (sp_day_dir p) (u "CREC-") [])
            && str_le (replace (sp_day_dir p) (u "CREC-") []) end_)
         speech_paths.
Proof.
  unfold filter_dates.
  set (dates := List.map _ speech_paths).
  assert (Hor : forall (a : option pystr) (b : M Line pystr),
             fst b = [] -> fst (py_or a b) = []).
  { intros [[|c a]|] b Hb; simpl; auto. }
  assert (Hmin : fst (py_min (Line := Line) (List.map snd dates)) = [])
    by now destruct (List.map snd dates).
  assert (Hmax : fst (py_max (Line := Line) (List.map snd dates)) = [])
    by now destruct (List.map snd dates).
  pose proof (Hor (arg_start args) _ Hmin) as Hs.
  pose proof (Hor (arg_end args) _ Hmax) as He.
  destruct (py_or (arg_start args) _) as [evs1 [s|e1]]; simpl in Hs; subst evs1;
    [|discriminate].
  change ([], Ok s) with (ret (Line := Line) s). rewrite bind_ret_l.
  destruct (py_or (arg_end args) _) as [evs2 [e|e2]]; simpl in He; subst evs2;
    [|discriminate].
  change ([], Ok e) with (ret (Line := Line) e). rewrite bind_ret_l.
  intros [= <- <- <- <-]. split; [reflexivity|].
  subst dates. clear. induction speech_paths as [|p l IH]; [reflexivity|].
  cbn [List.map List.filter snd].
  destruct (_ && _); cbn [List.map fst]; now rewrite IH.
Qed.

Lemma crec_removed (d : pystr) :
  contains (u "CREC-") d = false -> replace (u "CREC-" ++ d) (u "CREC-") [] = d.
Proof.
  intros Hd. change (u "CREC-") with [67; 82; 69; 67; 45].
  unfold replace. rewrite replace_from_occurrence.
  now apply replace_from_absent.
Qed.

(** X13. A path is kept by the script when the name of its day
    directory, without "CREC-", lies between the two bounds (both
    included, compared as strings); the kept paths stay in the order of
    the glob. *)
Theorem kept_paths_within_bounds (args : Args)
  (speech_paths kept : list SpeechPath) (start end_ : pystr)
  (evs : list (Event FlattenedSpeechRecord)) :
  filter_dates args speech_paths = (evs, Ok (kept, start, end_)) ->
  (exists keep, kept = List.filter keep speech_paths)
  /\ (forall p d,
         sp_day_dir p = u "CREC-" ++ d -> contains (u "CREC-") d = false ->
         (In p kept <->
          In p speech_paths /\ str_le start d = true /\ str_le d end_ = true)).
Proof.
  intros Hf. apply filter_dates_ok in Hf as [_ ->].
  split; [now eexists|].
  intros p d Hdir Hd. rewrite List.filter_In, Hdir, crec_removed by exact Hd.
  now rewrite andb_true_iff.
Qed.

Lemma kept_paths_within_bounds_witness :
  In path_2015 [path_2015]
  <-> In path_2015 [path_2016; path_2015]
      /\ str_le (u "2015-01-01") (u "2015-03-03") = true
      /\ str_le (u "2015-03-03") (u "2015-12-31") = true.
Proof.
  apply (proj2 (kept_paths_within_bounds
                  (mk_args (Some "2015-01-01"%string) (Some "2015-12-31"%string))
                  [path_2016; path_2015] [path_2015] (u "2015-01-01")
                  (u "2015-12-31") [] eq_refl)
           path_2015 (u "2015-03-03")).
  - reflexivity.
  - reflexivity.
Defined.

(** X14. When neither bound is given (or given empty) and the glob found
    a path, every path found is kept, in order; the bounds used are the
    least and the greatest of the dates of the paths. *)
Theorem no_bounds_keep_all {Line} (args : Args) (speech_paths : list SpeechPath) :
  arg_start args = None \/ arg_start args = Some [] ->
  arg_end args = None \/ arg_end args = Some [] ->
  speech_paths <> [] ->
  exists start end_,
    filter_dates (Line := Line) args speech_paths
    = ([], Ok (speech_paths, start, end_))
    /\ (exists p, In p speech_paths
                  /\ start = replace (sp_day_dir p) (u "CREC-") [])
    /\ (exists p, In p speech_paths
                  /\ end_ = replace (sp_day_dir p) (u "CREC-") [])
    /\ Forall
         (fun p =>
            str_le start (replace (sp_day_dir p) (u "CREC-") []) = true
            /\ str_le (replace (sp_day_dir p) (u "CREC-") []) end_ = true)
         speech_paths.
Proof.
  intros Hs He Hne. destruct speech_paths as [|p0 l]; [congruence|].
  set (date := fun p => replace (sp_day_dir p) (u "CREC-") []).
  set (ds := List.map date l).
  assert (Hin : forall p, In p (p0 :: l) -> In (date p) (date p0 :: ds)).
  { intros p [<-|Hp]; [now left | right; now apply in_map]. }
  assert (Hback : forall d, In d (date p0 :: ds) ->
                            exists p, In p (p0 :: l) /\ d = date p).
  { intros d [<-|Hd]; [exists p0; split; [now left | reflexivity]|].
    apply in_map_iff in Hd as (p & <- & Hp). exists p. split; [now right | reflexivity]. }
  exists (min_loop (date p0) ds), (max_loop (date p0) ds).
  assert (Hall : Forall
            (fun p => str_le (min_loop (date p0) ds) (date p) = true
                      /\ str_le (date p) (max_loop (date p0) ds) = true)
            (p0 :: l)).
  { apply List.Forall_forall. intros p Hp. split.
    - apply min_loop_le. now apply Hin.
    - apply max_loop_ge. now apply Hin. }
  split; [|split; [apply Hback, min_loop_In | split; [apply Hback, max_loop_In | exact Hall]]].
  unfold filter_dates. cbn [List.map snd].
  rewrite !List.map_map. cbn [snd]. fold date. fold ds.
  assert (Hstart : py_or (Line := Line) (arg_start args)
                     (py_min (date p0 :: ds))
                   = ret (min_loop (date p0) ds))
    by (destruct Hs as [-> | ->]; reflexivity).
  assert (Hend : py_or (Line := Line) (arg_end args)
                   (py_max (date p0 :: ds))
                 = ret (max_loop (date p0) ds))
    by (destruct He as [-> | ->]; reflexivity).
  change (replace (sp_day_dir p0) (u "CREC-") []) with (date p0).
  rewrite Hstart, bind_ret_l, Hend, bind_ret_l.
  change ((p0, date p0) :: List.map (fun p => (p, date p)) l)
    with (List.map (fun p => (p, date p)) (p0 :: l)).
  rewrite filter_all.
  - assert (Hid : forall l0 : list SpeechPath,
               List.map fst (List.map (fun p => (p, date p)) l0) = l0).
    { intros l0. induction l0 as [|p l0 IH]; [reflexivity|].
      cbn [List.map fst]. now rewrite IH. }
    unfold ret. replace (List.map fst (_ :: _)) with (p0 :: l); [reflexivity|].
    symmetry. exact (Hid (p0 :: l)).
  - intros [p d] Hpd.
    change (In (p, d) (List.map (fun p => (p, date p)) (p0 :: l))) in Hpd.
    apply in_map_iff in Hpd as (p' & [= <- <-] & Hp').
    rewrite List.Forall_forall in Hall. destruct (Hall _ Hp') as [H1 H2].
    cbn [snd]. now rewrite H1, H2.
Qed.

Lemma no_bounds_keep_all_witness :
  exists start end_,
    filter_dates (Line := FlattenedSpeechRecord) (mk_args None None)
      [path_2016; path_2015]
    = ([], Ok ([path_2016; path_2015], start, end_)).
Proof.
  destruct (no_bounds_keep_all (Line := FlattenedSpeechRecord)
              (mk_args None None) [path_2016; path_2015]
              (or_introl eq_refl) (or_introl eq_refl))
    as (start & end_ & H & _); [discriminate|].
  now exists start, end_.
Defined.

(** X15. When the glob finds no path, the script stops with
    [ValueError] ([min] or [max] of nothing) unless both bounds are given
    and not empty; with both given, no path is kept. *)
Theorem no_paths_found {Line} (args : Args) :
  (forall start end_,
      arg_start args = Some start -> start <> [] ->
      arg_end args = Some end_ -> end_ <> [] ->
      filter_dates (Line := Line) args [] = ([], Ok ([], start, end_)))
  /\ (arg_start args = None \/ arg_start args = Some []
      \/ arg_end args = None \/ arg_end args = Some [] ->
      filter_dates (Line := Line) args [] = ([], Raise ValueError)).
Proof.
  unfold filter_dates. cbn [List.map]. split.
  - intros [|c s] [|c' e] -> Hs -> He; try congruence. reflexivity.
  - intros H.
    destruct (arg_start args) as [[|c s]|], (arg_end args) as [[|c' e]|];
      try reflexivity.
    destruct H as [H|[H|[H|H]]]; discriminate.
Qed.

Lemma no_paths_found_witness :
  filter_dates (Line := FlattenedSpeechRecord)
    (mk_args None (Some "2015-12-31"%string)) []
  = ([], Raise ValueError).
Proof.
  apply (proj2 (no_paths_found (mk_args None (Some "2015-12-31"%string)))).
  left. reflexivity.
Defined.

(** ** The script: the index and the run *)

Section ScriptFacts.

Variable fs_legislators : pystr -> file (list RawLegislator).
Variable fs : pystr -> file Document.
Variable glob : pystr -> list SpeechPath.
Variable path_join : pystr -> pystr -> pystr.

Local Abbreviation load_body :=
  (fun (raw_legislator_data : list RawLegislator) (path : pystr) =>
     match fs_legislators path with
     | Json l => ret (Line := FlattenedSpeechRecord) (raw_legislator_data ++ l)
     | LoadFails why => raise (load_exn why)
     end).

Lemma load_loop_step (path : pystr) (l : list RawLegislator)
  (fpaths : list pystr) (acc : list RawLegislator) :
  fs_legislators path = Json l ->
  for_each load_body (path :: fpaths) acc = for_each load_body fpaths (acc ++ l).
Proof.
  intros Hl. cbn [for_each]. rewrite Hl.
  change (bind (ret (acc ++ l)) (for_each load_body fpaths))
    with (ret (Line := FlattenedSpeechRecord) (acc ++ l)
            ≫= for_each load_body fpaths).
  now rewrite bind_ret_l.
Qed.

Lemma load_loop_ok (fpaths : list pystr) (ls : list (list RawLegislator))
  (acc : list RawLegislator) :
  Forall2 (fun path l => fs_legislators path = Json l) fpaths ls ->
  for_each load_body fpaths acc = ([], Ok (acc ++ concat ls)).
Proof.
  intros H. revert acc. induction H as [|path l fpaths ls Hl _ IH]; intros acc.
  - cbn. now rewrite app_nil_r.
  - rewrite (load_loop_step path l) by exact Hl.
    cbn [concat]. now rewrite IH, app_assoc.
Qed.

Lemma load_loop_fails (pre : list pystr) (ls : list (list RawLegislator))
  (path : pystr) (post : list pystr) (why : load_error)
  (acc : list RawLegislator) :
  Forall2 (fun path l => fs_legislators path = Json l) pre ls ->
  fs_legislators path = LoadFails why ->
  for_each load_body (pre ++ path :: post) acc = ([], Raise (load_exn why)).
Proof.
  intros H Hwhy. revert acc.
  induction H as [|p l pre ls Hl _ IH]; intros acc.
  - cbn [app for_each]. now rewrite Hwhy.
  - cbn [app]. rewrite (load_loop_step p l) by exact Hl. apply IH.
Qed.

Lemma load_loop_inv (fpaths : list pystr) (acc : list RawLegislator) :
  (exists ls,
      Forall2 (fun path l => fs_legislators path = Json l) fpaths ls
      /\ for_each load_body fpaths acc = ([], Ok (acc ++ concat ls)))
  \/ (exists why, for_each load_body fpaths acc = ([], Raise (load_exn why))).
Proof.
  revert acc; induction fpaths as [|path fpaths IH]; intros acc.
  - left. exists []. split; [constructor|]. cbn. now rewrite app_nil_r.
  - destruct (fs_legislators path) as [l|why] eqn:Hl.
    + rewrite (load_loop_step path l) by exact Hl.
      destruct (IH (acc ++ l)) as [(ls & Hls & Hf)|[why Hf]].
      * left. exists (l :: ls). split; [now constructor|].
        cbn [concat]. now rewrite Hf, app_assoc.
      * right. now exists why.
    + right. exists why. cbn [for_each]. now rewrite Hl.
Qed.

(** X16. The script loads the legislator files in the order given and
    hands their records, one file after the other, to the index builder;
    at the first file that cannot be loaded it stops with the exception
    of that file ([OSError], [UnicodeDecodeError] or [JSONDecodeError]). *)
Theorem load_legislators_concatenates (fpaths : list pystr) :
  (forall ls,
      Forall2 (fun path l => fs_legislators path = Json l) fpaths ls ->
      load_legislators fs_legislators fpaths = ([], Ok (concat ls)))
  /\ (forall pre ls path post why,
         fpaths = pre ++ path :: post ->
         Forall2 (fun path l => fs_legislators path = Json l) pre ls ->
         fs_legislators path = LoadFails why ->
         load_legislators fs_legislators fpaths = ([], Raise (load_exn why))).
Proof.
  unfold load_legislators. split.
  - intros ls Hls. now rewrite (load_loop_ok fpaths ls []).
  - intros pre ls path post why -> Hpre Hwhy.
    now apply (load_loop_fails pre ls).
Qed.

(** X17. The script never ends with [NameError]: it binds the global
    [out_fpath] before the run.  It ends with [IndexError] only if a
    record of one of the legislator files has an empty list of terms. *)
Theorem script_exceptions (args : Args) (e : exn) :
  snd (script fs_legislators fs glob path_join args) = Raise e ->
  e <> NameError
  /\ (e = IndexError ->
      exists path l leg,
        In path (legislator_data_fpaths args)
        /\ fs_legislators path = Json l /\ In leg l /\ leg_terms leg = []).
Proof.
  unfold script, load_legislators.
  destruct (load_loop_inv (legislator_data_fpaths args) [])
    as [(ls & Hls & Hf)|[why Hf]]; rewrite Hf.
  2: { intros [= <-]. destruct why; split; discriminate. }
  cbn [app].
  change ([], Ok (concat ls))
    with (ret (Line := FlattenedSpeechRecord) (concat ls)).
  rewrite bind_ret_l.
  destruct (filter_dates args (glob (speech_data_dir args)))
    as [evs [[[kept start] end_]|e1]] eqn:Hfd.
  - apply filter_dates_ok in Hfd as [-> _].
    change ([], Ok (kept, start, end_))
      with (ret (Line := FlattenedSpeechRecord) (kept, start, end_)).
    rewrite bind_ret_l. intros Hrun.
    apply run_fails in Hrun.
    assert (Hname : e <> NameError).
    { intros ->. simpl in Hrun. now destruct Hrun as [_ Hout]. }
    split; [exact Hname|]. intros ->. simpl in Hrun.
    destruct Hrun as (path & data & speech & speaker_id & legislator
                      & _ & _ & _ & Hleg & Hterms).
    apply index_entry_origin in Hleg as (leg & Hin & _ & ->).
    apply in_concat in Hin as (l & Hl & Hleg).
    clear -Hls Hl Hleg Hterms.
    induction Hls as [|p l0 fpaths ls Hp _ IH]; [easy|].
    destruct Hl as [->|Hl].
    + exists p, l, leg. repeat split; [now left | assumption..].
    + destruct (IH Hl) as (p' & l' & leg' & Hin' & H').
      exists p', l', leg'. split; [now right | exact H'].
  - unfold mbind, M_bind, bind. intros [= <-].
    assert (He1 : e1 = ValueError).
    { unfold filter_dates in Hfd. clear -Hfd.
      set (ds := List.map snd _) in Hfd.
      destruct (arg_start args) as [[|c s]|], (arg_end args) as [[|c' e']|],
        ds as [|d ds]; cbn in Hfd; congruence. }
    subst e1. split; discriminate.
Qed.

End ScriptFacts.

Lemma script_exceptions_witness :
  exists path l leg,
    In path (legislator_data_fpaths (mk_args None None))
    /\ Json [raw_no_terms] = Json l /\ In leg l /\ leg_terms leg = [].
Proof.
  apply (proj2 (script_exceptions (fun _ => Json [raw_no_terms])
                  (fun _ => Json doc_floor) (fun _ => [path_2015])
                  (fun d name => d ++ u "/" ++ name)
                  (mk_args None None) IndexError eq_refl)).
  reflexivity.
Defined.

(** ** Text cleaning, further *)

Lemma replace_from_length (old : pystr) (s : pystr) (k : nat) :
  (length (replace_from old [] k s) <= length s)%nat.
Proof.
  revert k; induction s as [|c s IH]; intros k; [apply Nat.le_refl|].
  cbn [replace_from]. destruct k as [|k].
  - destruct (starts_with old (c :: s)); cbn [app length].
    + specialize (IH (length old - 1)%nat). lia.
    + specialize (IH 0%nat). lia.
  - specialize (IH k). cbn [length]. lia.
Qed.

Lemma lstrip_length (chars s : pystr) :
  (length (lstrip chars s) <= length s)%nat.
Proof.
  induction s as [|c s IH]; [apply Nat.le_refl|].
  cbn [lstrip]. destruct (mem c chars); cbn [length]; lia.
Qed.

Lemma re_sub_spaces_length (b : bool) (s : pystr) :
  (length (re_sub_spaces (u " ") b s) <= length s)%nat.
Proof.
  change (u " ") with [32].
  revert b; induction s as [|c s IH]; intros b; [apply Nat.le_refl|].
  cbn [re_sub_spaces]. destruct (is_space c).
  - specialize (IH true). destruct b; cbn [app length]; lia.
  - specialize (IH false). cbn [length]. lia.
Qed.

(** X18. Cleaning never makes a text longer. *)
Theorem clean_text_not_longer (speaker text : pystr) :
  (length (clean_text speaker text) <= length text)%nat.
Proof.
  unfold clean_text.
  etransitivity; [apply re_sub_spaces_length|].
  etransitivity; [apply lstrip_length|].
  unfold replace. destruct speaker as [|c speaker].
  - cbn [app]. induction text as [|x text IH]; [apply Nat.le_refl|].
    cbn [flat_map app length]. lia.
  - apply replace_from_length.
Qed.

(** X19. A raw text made of the speaker's name, a period, a space and a
    body comes out as the body, when the name does not occur again, and
    the body does not begin with a period or a space and has its white
    space already collapsed. *)
Theorem clean_text_strips_leading_name (speaker body : pystr) :
  speaker <> [] ->
  contains speaker (u ". " ++ body) = false ->
  starts_with (u ".") body = false -> starts_with (u " ") body = false ->
  re_sub_spaces (u " ") false body = body ->
  clean_text speaker (speaker ++ u ". " ++ body) = body.
Proof.
  intros Hne Habsent Hdot Hsp Hbody. unfold clean_text, replace.
  destruct speaker as [|c speaker]; [congruence|].
  rewrite replace_from_occurrence, replace_from_absent by exact Habsent.
  change (u ". " ++ body) with (46 :: 32 :: body).
  change (u ". ") with [46; 32]. cbn [lstrip mem existsb N.eqb Pos.eqb orb].
  rewrite lstrip_fixed; [exact Hbody|].
  destruct body as [|x body]; [exact I|].
  change (u ".") with [46] in Hdot. change (u " ") with [32] in Hsp.
  cbn [starts_with] in Hdot, Hsp. rewrite andb_true_r in Hdot, Hsp.
  unfold mem. cbn [existsb].
  now rewrite (N.eqb_sym x 46), (N.eqb_sym x 32), Hdot, Hsp.
Qed.

Lemma clean_text_strips_leading_name_witness :
  clean_text (u "Mr. SMITH") (u "Mr. SMITH" ++ u ". " ++ u "Thank you, Madam Speaker.")
  = u "Thank you, Madam Speaker.".
Proof.
  apply clean_text_strips_leading_name.
  - discriminate.
  - vm_compute. reflexivity.
  - vm_compute. reflexivity.
  - vm_compute. reflexivity.
  - vm_compute. reflexivity.
Defined.

Lemma cleaned_head_not_period (s : pystr) :
  starts_with (u ".") (re_sub_spaces (u " ") false (lstrip (u ". ") s)) = false.
Proof.
  change (u ".") with [46]. change (u " ") with [32].
  change (u ". ") with [46; 32].
  destruct (lstrip_lstripped [46; 32] s) as (pre & _ & _ & Hhead).
  destruct (lstrip [46; 32] s) as [|c t]; [reflexivity|].
  cbn [re_sub_spaces]. unfold mem in Hhead. cbn [existsb] in Hhead.
  apply orb_false_iff in Hhead as [H46 _].
  destruct (is_space c); cbn [app starts_with]; [reflexivity|].
  now rewrite N.eqb_sym, H46.
Qed.

(** X20. The text of a record written or returned never begins with a
    period. *)
Theorem emitted_text_no_leading_period (fs : pystr -> file Document)
  (out_fpath : option pystr) (legislator_data : gmap pystr Legislator)
  (output_fpath : option fpath_arg) (remove_procedural restrict_to_gop_dem : bool)
  (input_paths : list pystr) :
  Forall (fun r => starts_with (u ".") (r_text r) = false)
    (emitted (process_and_speech_data fs out_fpath legislator_data
                output_fpath remove_procedural restrict_to_gop_dem
                input_paths)).
Proof.
  eapply List.Forall_impl; [|apply run_emitted_from_speech].
  intros r (path & data & date & speech & speaker_id & legislator & term
            & party & _ & _ & _ & _ & _ & _ & _ & _ & ->).
  apply cleaned_head_not_period.
Qed.

(** ** The date of a document, further *)

Lemma month_map_values (month value : pystr) :
  MONTH_MAP !! month = Some value -> length value = 2%nat.
Proof.
  unfold MONTH_MAP. intros H%elem_of_list_to_map_2.
  apply list_elem_of_In in H. cbv in H.
  repeat (destruct H as [[= <- <-]|H]; [reflexivity|]).
  destruct H.
Qed.

Lemma format_02_length (day : Z) :
  (-9 <= day <= 99)%Z -> length (format_02 day) = 2%nat.
Proof.
  intros Hday.
  assert (Hall : forallb
                   (fun k => (length (format_02 (Z.of_nat k - 9)) =? 2)%nat)
                   (seq 0 109) = true) by (vm_compute; reflexivity).
  rewrite forallb_forall in Hall.
  specialize (Hall (Z.to_nat (day + 9))).
  replace (Z.of_nat (Z.to_nat (day + 9)) - 9)%Z with day in Hall by lia.
  apply Nat.eqb_eq, Hall, in_seq. lia.
Qed.

(** X21. For a month of the table and a day from -9 to 99, the check of
    the date is a check of the year: the date is accepted exactly when
    the year is 4 code points long, whatever the day. *)
Theorem date_check_is_year_length (data : Document) (month : pystr) (day : Z) :
  MONTH_MAP !! h_month (d_header data) = Some month ->
  py_int (Line := FlattenedSpeechRecord) (h_day (d_header data)) = ([], Ok day) ->
  (-9 <= day <= 99)%Z ->
  collect_date data
  = if (length (py_str (h_year (d_header data))) =? 4)%nat
    then ([], Ok (py_str (h_year (d_header data)) ++ u "-" ++ month ++ u "-"
                    ++ format_02 day))
    else ([], Raise AssertionError).
Proof.
  intros Hmonth Hday Hrange. unfold collect_date, dict_get.
  rewrite Hmonth, bind_ret_l, Hday.
  change ([], Ok day) with (ret (Line := FlattenedSpeechRecord) day).
  rewrite bind_ret_l.
  rewrite !length_app, (month_map_values _ _ Hmonth),
    (format_02_length _ Hrange).
  change (length (u "-")) with 1%nat.
  replace (length (py_str (h_year (d_header data))) + (1 + (2 + (1 + 2))) =? 10)%nat
    with (length (py_str (h_year (d_header data))) =? 4)%nat; [reflexivity|].
  destruct (Nat.eqb_spec (length (py_str (h_year (d_header data)))) 4);
    symmetry; [apply Nat.eqb_eq | apply Nat.eqb_neq]; lia.
Qed.

Lemma date_check_is_year_length_witness :
  collect_date doc_negative_day = ([], Ok (u "2015-03--5")).
Proof.
  refine (date_check_is_year_length doc_negative_day (u "03") (-5)%Z
            eq_refl eq_refl _).
  lia.
Defined.

(** ** Reading back a printed integer *)

Lemma u_cons (c : ascii) (s : string) : u (String c s) = N_of_ascii c :: u s.
Proof. reflexivity. Qed.

Ltac digit_step :=
  rewrite u_cons;
  match goal with
  | |- context [N_of_ascii ?c] =>
      let v := eval vm_compute in (N_of_ascii c) in
      change (N_of_ascii c) with v
  end.

Lemma parse_digits_acc (d : Decimal.uint) (acc : positive) :
  parse_digits (Zpos acc) true (u (NilEmpty.string_of_uint d))
  = Some (Zpos (Pos.of_uint_acc d acc)).
Proof.
  revert acc;
    induction d as [|d IH|d IH|d IH|d IH|d IH|d IH|d IH|d IH|d IH|d IH];
    intros acc; cbn [NilEmpty.string_of_uint Pos.of_uint_acc];
    [reflexivity|..]; digit_step; cbn [parse_digits].
  all: cbn [N.eqb Pos.eqb digit_val N.leb N.compare Pos.compare
              Pos.compare_cont andb N.sub Pos.sub Z.of_N].
  all: rewrite <- IH; f_equal; lia.
Qed.

Lemma parse_digits_uint (d : Decimal.uint) (after_digit : bool) :
  after_digit = true \/ d <> Decimal.Nil ->
  parse_digits 0 after_digit (u (NilEmpty.string_of_uint d))
  = Some (Z.of_N (Pos.of_uint d)).
Proof.
  revert after_digit;
    induction d as [|d IH|d IH|d IH|d IH|d IH|d IH|d IH|d IH|d IH|d IH];
    intros after_digit Hd; cbn [NilEmpty.string_of_uint Pos.of_uint].
  - destruct Hd as [->|Hd]; [reflexivity | congruence].
  - digit_step. cbn [parse_digits].
    cbn [N.eqb Pos.eqb digit_val N.leb N.compare Pos.compare
           Pos.compare_cont andb N.sub Pos.sub Z.of_N].
    apply IH. now left.
  - digit_step. cbn [parse_digits]. apply (parse_digits_acc d 1).
  - digit_step. cbn [parse_digits]. apply (parse_digits_acc d 2).
  - digit_step. cbn [parse_digits]. apply (parse_digits_acc d 3).
  - digit_step. cbn [parse_digits]. apply (parse_digits_acc d 4).
  - digit_step. cbn [parse_digits]. apply (parse_digits_acc d 5).
  - digit_step. cbn [parse_digits]. apply (parse_digits_acc d 6).
  - digit_step. cbn [parse_digits]. apply (parse_digits_acc d 7).
  - digit_step. cbn [parse_digits]. apply (parse_digits_acc d 8).
  - digit_step. cbn [parse_digits]. apply (parse_digits_acc d 9).
Qed.

Lemma digits_space_free (d : Decimal.uint) :
  Forall (fun c => int_space c = false) (u (NilEmpty.string_of_uint d)).
Proof.
  induction d; cbn [NilEmpty.string_of_uint]; [constructor|..];
    rewrite u_cons; constructor; (reflexivity || assumption).
Qed.

Lemma drop_spaces_fixed (s : pystr) :
  match s with [] => True | c :: _ => int_space c = false end ->
  drop_spaces s = s.
Proof. destruct s as [|c s]; simpl; [reflexivity | now intros ->]. Qed.

Lemma strip_fixed (s : pystr) :
  Forall (fun c => int_space c = false) s ->
  rev (drop_spaces (rev (drop_spaces s))) = s.
Proof.
  intros Hs.
  assert (Hhead : forall t, Forall (fun c => int_space c = false) t ->
                            match t with [] => True | c :: _ => int_space c = false end)
    by (intros t Ht; destruct Ht; [exact I | assumption]).
  rewrite (drop_spaces_fixed s) by now apply Hhead.
  rewrite drop_spaces_fixed; [apply rev_involutive|].
  apply Hhead, List.Forall_forall. intros c Hc%in_rev.
  rewrite List.Forall_forall in Hs. now apply Hs.
Qed.

Lemma int_of_str_digits (d : Decimal.uint) :
  d <> Decimal.Nil ->
  int_of_str (u (NilEmpty.string_of_uint d)) = Some (Z.of_N (Pos.of_uint d)).
Proof.
  intros Hd. unfold int_of_str.
  rewrite strip_fixed by apply digits_space_free.
  rewrite <- (parse_digits_uint d false) by now right.
  destruct d; [congruence|..]; cbn [NilEmpty.string_of_uint]; digit_step;
    reflexivity.
Qed.

Lemma int_of_str_of_int (n : Z) : int_of_str (str_of_int n) = Some n.
Proof.
  unfold str_of_int. destruct n as [|p|p]; [reflexivity|..];
    pose proof (Unsigned.to_uint_nonnil p) as Hnil;
    pose proof (Unsigned.of_to p) as Hval;
    assert (Hs : NilZero.string_of_uint (Pos.to_uint p)
                 = NilEmpty.string_of_uint (Pos.to_uint p))
      by (destruct (Pos.to_uint p); [congruence | reflexivity..]);
    cbn [Z.to_int NilZero.string_of_int]; rewrite Hs.
  - rewrite int_of_str_digits by exact Hnil. now rewrite Hval.
  - rewrite u_cons. change (N_of_ascii "-") with 45.
    unfold int_of_str. rewrite strip_fixed.
    + rewrite parse_digits_uint by now right. now rewrite Hval.
    + constructor; [reflexivity | apply digits_space_free].
Qed.

(** X22. A day given as the decimal string of an integer is read as
    that integer: the date of a document is the same whether its day is
    the JSON integer or the string that prints it. *)
Theorem day_string_reads_as_integer (data : Document) (n : Z) :
  int_of_str (str_of_int n) = Some n
  /\ collect_date (with_day data (JStr (str_of_int n)))
     = collect_date (with_day data (JInt n)).
Proof.
  split; [apply int_of_str_of_int|].
  unfold collect_date, with_day, py_int. cbn [d_header h_year h_month h_day].
  now rewrite int_of_str_of_int.
Qed.

(** ** What the destination holds after a run *)

Lemma file_after_app {Line} (fpath : pystr) (content : option (list Line))
  (evs1 evs2 : list (Event Line)) :
  file_after fpath content (evs1 ++ evs2)
  = file_after fpath (file_after fpath content evs1) evs2.
Proof. unfold file_after. apply fold_left_app. Qed.

Lemma written_app {Line} (evs1 evs2 : list (Event Line)) :
  written (evs1 ++ evs2) = written evs1 ++ written evs2.
Proof.
  induction evs1 as [|[msg|q m r] evs1 IH]; simpl; [reflexivity | exact IH|].
  now rewrite IH.
Qed.

Lemma file_after_truncating {Line} (fpath : pystr) (evs : list (Event Line))
  (content : option (list Line)) :
  Forall (write_in_mode fpath ModeW) evs ->
  file_after fpath content evs
  = match rev (written evs) with
    | [] => content
    | r :: _ => Some [r]
    end.
Proof.
  induction evs as [|e evs IH] using rev_ind; intros Hevs; [reflexivity|].
  apply Forall_app in Hevs as [Hevs He]. inversion He as [|? ? Hmode _]; subst.
  rewrite file_after_app, written_app, rev_app_distr, IH by exact Hevs.
  destruct e as [msg|q m r]; cbn.
  - reflexivity.
  - destruct Hmode as [-> ->]. now rewrite str_eqb_refl.
Qed.

Lemma file_after_appending {Line} (fpath : pystr) (evs : list (Event Line))
  (content : option (list Line)) :
  Forall (write_in_mode fpath ModeA) evs ->
  file_after fpath content evs
  = match written evs with
    | [] => content
    | _ :: _ => Some (default [] content ++ written evs)
    end.
Proof.
  induction evs as [|e evs IH] using rev_ind; intros Hevs; [reflexivity|].
  apply Forall_app in Hevs as [Hevs He]. inversion He as [|? ? Hmode _]; subst.
  rewrite file_after_app, written_app, IH by exact Hevs.
  destruct e as [msg|q m r]; cbn.
  - now rewrite app_nil_r.
  - destruct Hmode as [-> ->]. rewrite str_eqb_refl.
    destruct (written evs) as [|r0 l]; cbn; [reflexivity|].
    now rewrite <- app_assoc.
Qed.

Lemma combine_seq_ge {A} (l : list A) (n i : nat) (x : A) :
  In (i, x) (combine (seq n (length l)) l) -> (n <= i)%nat.
Proof.
  revert n; induction l as [|y l IH]; intros n; simpl; [easy|].
  intros [[= <- <-]|Hin]; [lia|]. specialize (IH (S n) Hin). lia.
Qed.

Section Destination.

Variable fs : pystr -> file Document.
Variable dest : pystr.
Variable legislator_data : gmap pystr Legislator.
Variable output_fpath : option fpath_arg.
Variable remove_procedural : bool.
Variable restrict_to_gop_dem : bool.

Local Abbreviation mode_of i := (if (i =? 0)%nat then ModeW else ModeA).

Lemma process_file_mode (speeches : option (list FlattenedSpeechRecord))
  (i : nat) (path : pystr) :
  respects (write_in_mode dest (mode_of i)) (fun _ => True)
    (process_file fs (Some dest) legislator_data output_fpath
       remove_procedural restrict_to_gop_dem speeches (i, path)).
Proof.
  unfold process_file, load_json.
  destruct (fs path) as [data|]; [|apply respects_raise].
  rewrite bind_ret_l.
  destruct (remove_procedural && _); [now apply respects_ret|].
  eapply respects_bind with (IA := fun _ => True).
  { split; [now rewrite collect_date_events | easy]. }
  intros date _. apply respects_for_each; [|exact I].
  intros s speech _ _. unfold process_speech.
  destruct (str_eqb _ _); [|now apply respects_ret].
  destruct (attributed _) as [speaker_id|]; [|now apply respects_ret].
  unfold dict_get.
  destruct (legislator_data !! speaker_id) as [legislator|];
    [|apply respects_raise].
  rewrite bind_ret_l.
  eapply respects_bind with (IA := fun _ => True).
  - destruct (filter_terms_respects (Line := FlattenedSpeechRecord)
                (fun _ => False) date (l_terms legislator)) as [Hw _].
    split; [|easy]. eapply List.Forall_impl; [|exact Hw].
    now intros [msg|q m r].
  - intros term _.
    destruct (resolve_party _ _) as [party|]; [|now apply respects_ret].
    unfold save, append. destruct output_fpath as [d|].
    + split; [|easy]. now repeat constructor.
    + destruct s; [now apply respects_ret | apply respects_raise].
Qed.

(** X23. After a run with the global [out_fpath] bound, the destination
    holds the last record written for the first input path (or, if none
    was written for it, what it held before), followed by all the records
    written for the later input paths, in the order of writing. *)
Theorem destination_after_run (path0 : pystr) (rest : list pystr)
  (content : option (list FlattenedSpeechRecord)) :
  let speeches := if truthy output_fpath then Some [] else None in
  let first :=
    fst (process_file fs (Some dest) legislator_data output_fpath
           remove_procedural restrict_to_gop_dem speeches (0%nat, path0)) in
  let run :=
    process_and_speech_data fs (Some dest) legislator_data output_fpath
      remove_procedural restrict_to_gop_dem (path0 :: rest) in
  exists later,
    fst run = first ++ later
    /\ Forall (write_in_mode dest ModeW) first
    /\ Forall (write_in_mode dest ModeA) later
    /\ file_after dest content (fst run)
       = let after_first :=
           match rev (written first) with
           | [] => content
           | r :: _ => Some [r]
           end in
         match written later with
         | [] => after_first
         | _ :: _ => Some (default [] after_first ++ written later)
         end.
Proof.
  cbv zeta. unfold process_and_speech_data, enumerate.
  cbn [length seq combine for_each].
  set (speeches := if truthy output_fpath then Some [] else None).
  pose proof (process_file_mode speeches 0 path0) as [Hfirst _].
  destruct (process_file _ _ _ _ _ _ speeches (0%nat, path0))
    as [evs0 [s|e]] eqn:Hp0; cbn [fst] in *.
  - set (loop := for_each _ (combine (seq 1 (length rest)) rest)).
    assert (Hlater : Forall (write_in_mode dest ModeA) (fst (loop s))).
    { apply (respects_for_each (write_in_mode dest ModeA) (fun _ => True));
        [|exact I].
      intros s0 [i path] Hin _.
      apply combine_seq_ge in Hin.
      pose proof (process_file_mode s0 i path) as Hm.
      destruct i as [|i]; [lia | exact Hm]. }
    unfold bind. destruct (loop s) as [evs1 r1]. cbn [fst] in *.
    exists evs1. repeat split; try assumption.
    rewrite file_after_app, (file_after_truncating dest evs0) by assumption.
    now rewrite (file_after_appending dest evs1) by assumption.
  - exists []. unfold bind. cbn [fst]. rewrite app_nil_r.
    repeat split; [assumption | constructor |].
    now rewrite file_after_truncating.
Qed.

(** X24. With a destination, a run that ends without an exception
    returns what [speeches] was set to at the start (the empty list, or
    [None] for a destination that is the empty string): no record is
    kept in memory. *)
Theorem destination_run_returns_no_record (out_fpath : option pystr)
  (d : fpath_arg) (input_paths : list pystr)
  (result : option (list FlattenedSpeechRecord)) :
  snd (process_and_speech_data fs out_fpath legislator_data (Some d)
         remove_procedural restrict_to_gop_dem input_paths) = Ok result ->
  result = (if truthy (Some d) then Some [] else None).
Proof.
  set (speeches := if truthy (Some d) then Some [] else None).
  assert (Hall : forall evs : list (Event FlattenedSpeechRecord),
             Forall (fun _ => True) evs)
    by (intros evs; now apply List.Forall_forall).
  assert (H : respects (fun _ => True) (fun s => s = speeches)
                (process_and_speech_data fs out_fpath legislator_data (Some d)
                   remove_procedural restrict_to_gop_dem input_paths)).
  { unfold process_and_speech_data. fold speeches.
    apply respects_for_each; [|reflexivity].
    intros s [i path] _ ->. unfold process_file.
    eapply respects_bind with (IA := fun _ => True);
      [split; [apply Hall | easy]|].
    intros data _. destruct (remove_procedural && _); [now apply respects_ret|].
    eapply respects_bind with (IA := fun _ => True);
      [split; [apply Hall | easy]|].
    intros date _. apply respects_for_each; [|reflexivity].
    intros s speech _ ->. unfold process_speech.
    destruct (str_eqb _ _); [|now apply respects_ret].
    destruct (attributed _) as [speaker_id|]; [|now apply respects_ret].
    eapply respects_bind with (IA := fun _ => True);
      [split; [apply Hall | easy]|].
    intros legislator _.
    eapply respects_bind with (IA := fun _ => True);
      [split; [apply Hall | easy]|].
    intros term _.
    destruct (resolve_party _ _); [|now apply respects_ret].
    unfold save. destruct out_fpath; [|apply respects_raise].
    split; [apply Hall | now intros s [= <-]]. }
  intros Hres. exact (proj2 H _ Hres).
Qed.

End Destination.

Lemma destination_run_returns_no_record_witness :
  Some (@nil FlattenedSpeechRecord)
  = (if truthy (Some (PathObj ex_out)) then Some [] else None).
Proof.
  apply (destination_run_returns_no_record ex_fs ex_legislators false false
           (Some ex_out) (PathObj ex_out) [u "floor.json"] (Some [])).
  vm_compute. reflexivity.
Defined.

Lemma load_legislators_concatenates_witness :
  load_legislators
    (fun path =>
       if str_eqb path (u "current.json") then Json [raw_smith]
       else if str_eqb path (u "historical.json") then Json [raw_smith_old]
       else LoadFails NotJSON)
    [u "current.json"; u "historical.json"]
  = ([], Ok (concat [[raw_smith]; [raw_smith_old]]))
  /\ load_legislators
       (fun path =>
          if str_eqb path (u "current.json") then Json [raw_smith]
          else if str_eqb path (u "historical.json") then Json [raw_smith_old]
          else LoadFails NotJSON)
       ([u "current.json"] ++ u "notes.txt" :: [u "historical.json"])
     = ([], Raise JSONDecodeError).
Proof.
  split.
  - apply (proj1 (load_legislators_concatenates _ _)).
    repeat constructor.
  - apply (proj2 (load_legislators_concatenates _ _)
             [u "current.json"] [[raw_smith]] (u "notes.txt")
             [u "historical.json"] NotJSON eq_refl).
    + repeat constructor.
    + reflexivity.
Defined.
